(** * raspi_control: command dispatch, background tasks and file transfer

    A shallow embedding of the three server variants of the repository
    ([pi.py], [pi2.py], [pi_final.py]): the UDP command loops, the
    background-task handlers, the TCP upload session and the datagram
    file receiver, together with the properties the specification states
    about them. *)

From Stdlib Require Import ZArith NArith List Bool Lia.
From Stdlib Require Import Strings.Byte DecimalString.
From Stdlib Require Import Floats.PrimFloat.
From stdpp Require Import base strings gmap.
From Equations Require Import Equations.

Local Open Scope N_scope.

(* ===================================================================== *)
(** ** Python values: [bytes] and [str] *)
(* ===================================================================== *)

(** A Python [bytes] object. *)
Abbreviation bytes := (list byte).

(** A Python [str]: a sequence of Unicode code points. *)
Abbreviation codepoint := N (only parsing).
Abbreviation str := (list N) (only parsing).

Module Utf8.

(** For a lead byte [b1 >= 0x80]: the number of continuation bytes and
    the admissible range of the first of them (Unicode, table 3-7). *)
Definition lead_info (b1 : N) : option (nat * N * N) :=
  if (0xC2 <=? b1) && (b1 <=? 0xDF) then Some (1%nat, 0x80, 0xBF)
  else if b1 =? 0xE0 then Some (2%nat, 0xA0, 0xBF)
  else if (0xE1 <=? b1) && (b1 <=? 0xEC) then Some (2%nat, 0x80, 0xBF)
  else if b1 =? 0xED then Some (2%nat, 0x80, 0x9F)
  else if (0xEE <=? b1) && (b1 <=? 0xEF) then Some (2%nat, 0x80, 0xBF)
  else if b1 =? 0xF0 then Some (3%nat, 0x90, 0xBF)
  else if (0xF1 <=? b1) && (b1 <=? 0xF3) then Some (3%nat, 0x80, 0xBF)
  else if b1 =? 0xF4 then Some (3%nat, 0x80, 0x8F)
  else None.

Definition in_range (lo hi b : N) : bool := (lo <=? b) && (b <=? hi).
Definition is_cont (b : N) : bool := in_range 0x80 0xBF b.
Definition low6 (b : N) : N := N.land b 0x3F.

(** One pass over the input: [Some cp] for each well-formed sequence,
    [None] for each ill-formed subpart. After an ill-formed subpart the
    byte that broke the sequence is examined again as a lead byte. *)
Fixpoint scan (bs : bytes) : list (option N) :=
  match bs with
  | [] => []
  | b1 :: r1 =>
    let n1 := Byte.to_N b1 in
    if n1 <? 0x80 then Some n1 :: scan r1 else
    match lead_info n1 with
    | None => None :: scan r1
    | Some (k, lo, hi) =>
      match r1 with
      | [] => [None]
      | b2 :: r2 =>
        let n2 := Byte.to_N b2 in
        if negb (in_range lo hi n2) then None :: scan r1 else
        match k with
        | 1%nat => Some (N.land n1 0x1F * 64 + low6 n2) :: scan r2
        | _ =>
          match r2 with
          | [] => [None]
          | b3 :: r3 =>
            let n3 := Byte.to_N b3 in
            if negb (is_cont n3) then None :: scan r2 else
            match k with
            | 2%nat =>
              Some (N.land n1 0x0F * 4096 + low6 n2 * 64 + low6 n3) :: scan r3
            | _ =>
              match r3 with
              | [] => [None]
              | b4 :: r4 =>
                let n4 := Byte.to_N b4 in
                if negb (is_cont n4) then None :: scan r3 else
                Some (N.land n1 0x07 * 262144 + low6 n2 * 4096
                      + low6 n3 * 64 + low6 n4) :: scan r4
              end
            end
          end
        end
      end
    end
  end.

(** [bytes.decode()] / [bytes.decode('utf-8')]: strict; [None] stands
    for [UnicodeDecodeError]. *)
Definition decode (bs : bytes) : option str :=
  let items := scan bs in
  if forallb (fun i => match i with Some _ => true | None => false end) items
  then Some (omap id items) else None.

(** [bytes.decode('utf-8', errors='ignore')]. *)
Definition decode_ignore (bs : bytes) : str := omap id (scan bs).

End Utf8.

(** A [str] literal of the source, written as a Rocq string holding its
    UTF-8 encoding. *)
Definition py (s : string) : str :=
  Utf8.decode_ignore (String.list_byte_of_string s).

Module Str.

(** [str.isspace] for one character. *)
Definition isspace (c : N) : bool :=
  ((0x09 <=? c) && (c <=? 0x0D)) || ((0x1C <=? c) && (c <=? 0x20))
  || (c =? 0x85) || (c =? 0xA0) || (c =? 0x1680)
  || ((0x2000 <=? c) && (c <=? 0x200A))
  || (c =? 0x2028) || (c =? 0x2029) || (c =? 0x202F)
  || (c =? 0x205F) || (c =? 0x3000).

Fixpoint lstrip (s : str) : str :=
  match s with
  | c :: r => if isspace c then lstrip r else s
  | [] => []
  end.

Definition rstrip (s : str) : str := rev (lstrip (rev s)).

(** [s.strip()] *)
Definition strip (s : str) : str := rstrip (lstrip s).

(** [s.split()]: [cur] holds the current word, reversed. *)
Fixpoint split_from (cur : str) (s : str) : list str :=
  match s with
  | [] => match cur with [] => [] | _ => [rev cur] end
  | c :: r =>
    if isspace c
    then match cur with [] => split_from [] r | _ => rev cur :: split_from [] r end
    else split_from (c :: cur) r
  end.

Definition split (s : str) : list str := split_from [] s.

(** [s.split(maxsplit=n)]: after [n] words the rest of the string, less
    its leading white space, is the last item. *)
Fixpoint split_max_from (n : nat) (cur s : str) {struct s} : list str :=
  match n, cur with
  | O, [] => match lstrip s with [] => [] | t => [t] end
  | _, _ =>
    match s with
    | [] => match cur with [] => [] | _ => [rev cur] end
    | c :: r =>
      if isspace c
      then match cur with
           | [] => split_max_from n [] r
           | _ => rev cur :: split_max_from (Nat.pred n) [] r
           end
      else split_max_from n (c :: cur) r
    end
  end.

Definition split_max (n : nat) (s : str) : list str := split_max_from n [] s.

Fixpoint startswith (s p : str) : bool :=
  match p, s with
  | [], _ => true
  | a :: p', b :: s' => (a =? b) && startswith s' p'
  | _ :: _, [] => false
  end.

Definition endswith (s p : str) : bool := startswith (rev s) (rev p).

(** [x in s] for a one-character [x]. *)
Definition contains_char (c : N) (s : str) : bool := existsb (N.eqb c) s.

Fixpoint eqb (s t : str) : bool :=
  match s, t with
  | [], [] => true
  | a :: s', b :: t' => (a =? b) && eqb s' t'
  | _, _ => false
  end.

(** [sep.join(items)] *)
Fixpoint join (sep : str) (items : list str) : str :=
  match items with
  | [] => []
  | [x] => x
  | x :: r => x ++ sep ++ join sep r
  end.

End Str.

(** [os.path.join(a, b)] of [posixpath]. *)
Definition os_path_join (a b : str) : str :=
  if Str.startswith b (py "/") then b
  else match a with
       | [] => b
       | _ => if Str.endswith a (py "/") then a ++ b else a ++ py "/" ++ b
       end.

(** The configuration constants the three variants share. *)
Definition FILE_SAVE_PATH : str := py "/home/ppt5517/received_files/".
Definition AUDIO_RECORD_PATH : str :=
  os_path_join FILE_SAVE_PATH (py "audio_recordings").
Definition LED_GPIO_PIN : Z := 26.

(** [str(n)] for an [int]. *)
Definition str_of_int (n : Z) : str :=
  py (DecimalString.NilZero.string_of_int (Z.to_int n)).

(** [int.from_bytes(bs, byteorder='big')] and [struct.unpack('>I', bs)]. *)
Definition int_from_bytes (bs : bytes) : N :=
  fold_left (fun acc b => acc * 256 + Byte.to_N b) bs 0.

(** [f"{n:04X}"] for [n < 0x10000]. *)
Definition hex_digit (d : N) : N := if d <? 10 then 48 + d else 55 + d.

Definition hex4 (n : N) : str :=
  [hex_digit (n / 4096 mod 16); hex_digit (n / 256 mod 16);
   hex_digit (n / 16 mod 16); hex_digit (n mod 16)].

(* ===================================================================== *)
(** ** Exceptions, capability calls, environment, device state *)
(* ===================================================================== *)

(** The exception classes the handlers tell apart: [except ValueError]
    also catches [UnicodeDecodeError], its subclass; [except Exception]
    and a bare [except] catch all three. *)
Inductive exn_class := ValueError | UnicodeDecodeError | IndexError | OtherError.

Record exn := Exn { exn_cls : exn_class; exn_str : str }.

Definition is_ValueError (e : exn) : bool :=
  match exn_cls e with
  | ValueError | UnicodeDecodeError => true
  | _ => false
  end.

Definition is_Exception (e : exn) : bool := true.

(** Targets of [threading.Thread(target=...)]. *)
Inductive worker :=
| capture_loop                         (* pi_final.py *)
| recording_thread                     (* pi_final.py *)
| play_thread (filepath : str)         (* pi_final.py *)
| continuous_capture_func              (* pi.py, pi2.py *)
| send_file (filepath : str).          (* pi2.py *)

(** Calls into the capability ports (camera, GPIO, audio, serial, display,
    operating system). A call either raises or is appended to the trace. *)
Inductive call :=
| picam2_start
| picam2_stop
| picam2_capture_file (filename : str)
| picam2_configure_video
| picam2_start_and_record_video (filename : str) (duration : float)
| GPIO_output (pin : Z) (high : bool)
| Thread_start (target : worker)
| Popen (argv : list str)
| Process_terminate (proc : nat)
| time_sleep (secs : float)
| Serial_write (port data : str)
| audio_open_input
| audio_stream_stop
| audio_stream_close
| wave_write (filename : str)
| os_system (cmd : str)
| subprocess_run (argv : list str)
| os_remove (path : str).

(** What the surroundings answer. The module constants [GPIO_AVAILABLE]
    and [ser_connections] are fixed when the module is loaded. *)
Record Env := {
  float_of_str : str -> option float;     (* float(s); None: ValueError *)
  float_repr : float -> str;              (* str(x) *)
  str_lower : str -> str;                 (* s.lower() *)
  path_exists : str -> bool;              (* os.path.exists *)
  now_stamp : str;                        (* datetime.now().strftime("%Y%m%d_%H%M%S") *)
  strptime_error : str -> option str;     (* datetime.strptime: Some msg is ValueError(msg) *)
  decode_error : bytes -> str;            (* str(e) of a UnicodeDecodeError *)
  raises : call -> option exn;            (* the exception a port call ends in *)
  system_status : str -> Z;               (* os.system *)
  run_result : list str -> Z * str;       (* subprocess.run: returncode, stderr *)
  listdir : str -> list str;              (* os.listdir *)
  tcp_push : str -> str -> bool * str;    (* the socket dialogue of tcp_send_file *)
  picam2_started : list call -> bool;     (* picam2.started, after the calls so far *)
  GPIO_AVAILABLE : bool;
  ser_connections : str -> option bool    (* Some false: the port failed to open *)
}.

(** The module-level variables the handlers mutate, the level of the LED
    pin, and the trace of the port calls made so far (oldest first). *)
Record State := {
  continuous_capture : bool;
  capture_interval : float;
  is_audio_recording : bool;
  hdmi_player_process : option nat;
  led_pin_high : bool;
  trace : list call
}.

Definition set_continuous_capture (b : bool) (st : State) : State :=
  {| continuous_capture := b; capture_interval := capture_interval st;
     is_audio_recording := is_audio_recording st;
     hdmi_player_process := hdmi_player_process st;
     led_pin_high := led_pin_high st; trace := trace st |}.

Definition set_capture_interval (x : float) (st : State) : State :=
  {| continuous_capture := continuous_capture st; capture_interval := x;
     is_audio_recording := is_audio_recording st;
     hdmi_player_process := hdmi_player_process st;
     led_pin_high := led_pin_high st; trace := trace st |}.

Definition set_is_audio_recording (b : bool) (st : State) : State :=
  {| continuous_capture := continuous_capture st;
     capture_interval := capture_interval st; is_audio_recording := b;
     hdmi_player_process := hdmi_player_process st;
     led_pin_high := led_pin_high st; trace := trace st |}.

Definition set_hdmi_player_process (p : option nat) (st : State) : State :=
  {| continuous_capture := continuous_capture st;
     capture_interval := capture_interval st;
     is_audio_recording := is_audio_recording st; hdmi_player_process := p;
     led_pin_high := led_pin_high st; trace := trace st |}.

Definition set_led_pin_high (b : bool) (st : State) : State :=
  {| continuous_capture := continuous_capture st;
     capture_interval := capture_interval st;
     is_audio_recording := is_audio_recording st;
     hdmi_player_process := hdmi_player_process st;
     led_pin_high := b; trace := trace st |}.

Definition log_call (c : call) (st : State) : State :=
  {| continuous_capture := continuous_capture st;
     capture_interval := capture_interval st;
     is_audio_recording := is_audio_recording st;
     hdmi_player_process := hdmi_player_process st;
     led_pin_high := led_pin_high st; trace := trace st ++ [c] |}.

(** The state at module load. *)
Definition initial_state : State :=
  {| continuous_capture := false; capture_interval := 1%float;
     is_audio_recording := false; hdmi_player_process := None;
     led_pin_high := false; trace := [] |}.

(** *** A state and exception monad for the handlers *)

Inductive result (A : Type) :=
| Ok (a : A)
| Raise (e : exn).
Arguments Ok {A} a.
Arguments Raise {A} e.

Definition M (A : Type) : Type := State -> result A * State.

Definition ret {A} (a : A) : M A := fun st => (Ok a, st).

Definition bind {A B} (m : M A) (k : A -> M B) : M B :=
  fun st => match m st with
            | (Ok a, st') => k a st'
            | (Raise e, st') => (Raise e, st')
            end.

Definition raise {A} (e : exn) : M A := fun st => (Raise e, st).

Definition get : M State := fun st => (Ok st, st).

Definition modify (f : State -> State) : M unit := fun st => (Ok tt, f st).

(** [try: body except <catches> as e: handler e] *)
Definition try_except {A} (body : M A) (catches : exn -> bool)
    (handler : exn -> M A) : M A :=
  fun st => match body st with
            | (Raise e, st') => if catches e then handler e st' else (Raise e, st')
            | r => r
            end.

Declare Scope py_scope.
Delimit Scope py_scope with py.
Notation "x <- c ;; k" := (bind c (fun x => k))
  (at level 100, c at next level, right associativity) : py_scope.
Notation "c ;; k" := (bind c (fun _ => k))
  (at level 100, right associativity) : py_scope.
Local Open Scope py_scope.

Section Ports.
Variable env : Env.

(** A port call: raises what the environment says, or is recorded. *)
Definition port (c : call) : M unit :=
  match raises env c with
  | Some e => raise e
  | None => modify (log_call c)
  end.

(** [GPIO.output(LED_GPIO_PIN, level)] also moves the pin. *)
Definition gpio_output_led (high : bool) : M unit :=
  port (GPIO_output LED_GPIO_PIN high) ;; modify (set_led_pin_high high).

(** [subprocess.Popen(argv)]: the process object is named by its position
    in the trace. *)
Definition popen (argv : list str) : M nat :=
  st <- get ;; port (Popen argv) ;; ret (length (trace st)).

(** [float(s)] *)
Definition py_float (s : str) : M float :=
  match float_of_str env s with
  | Some x => ret x
  | None => raise (Exn ValueError (py "could not convert string to float"))
  end.

(** [s.lower()]: letter by letter on ASCII text, else asked of the
    environment. *)
Definition ascii_lower (c : N) : N :=
  if (65 <=? c) && (c <=? 90) then c + 32 else c.

Definition py_lower (s : str) : str :=
  if forallb (fun c => c <? 128) s then map ascii_lower s else str_lower env s.

(** [s.lower().endswith((e1, e2, ...))] *)
Definition lower_endswith_any (s : str) (exts : list string) : bool :=
  existsb (fun e => Str.endswith (py_lower s) (py e)) exts.

End Ports.

(* ===================================================================== *)
(** ** pi_final.py: string-to-hex-code dispatch *)
(* ===================================================================== *)

Module PiFinal.

Definition HDMI_DISPLAY : str := py "2".

(** The items of the dictionary: command text and code. *)
Definition COMMAND_ITEMS : list (list N * list N) :=
  Eval vm_compute in
    [ (py "capture", py "0x14BD0001");
      (py "continuous_capture", py "0x14BD0002");
      (py "continuous_capture stop", py "0x14BD0003");
      (py "record", py "0x14BD0004");
      (py "audio_record_start", py "0x14BD0005");
      (py "audio_record_stop", py "0x14BD0006");
      (py "audio_play", py "0x14BD0007");
      (py "set_time", py "0x42EB0001");
      (py "file_transfer", py "0x20010001");
      (py "download", py "0x20010002");
      (py "hdmi_play", py "0x22A10001");
      (py "hdmi_stop", py "0x22A10002");
      (py "tcp_send_file", py "0x30C10001");
      (py "run_script oled", py "0x30020001");
      (py "led_on", py "0x40010001");
      (py "led_off", py "0x40020001");
      (py "display", py "0x50010001");
      (py "serial", py "0x60010001") ].

Definition COMMAND_MAPPING : gmap (list N) (list N) :=
  list_to_map COMMAND_ITEMS.

Definition SCRIPT_PATHS_oled : str :=
  py "/home/ppt5517/OLED_Module_Code/RaspberryPi/python/example/ppt.py".

(** [COMMAND_MAPPING['k']] for a key written in the source. *)
Definition code_of (k : string) : str := default [] (COMMAND_MAPPING !! py k).

(** [get_command_code]; [full_command.split()[0]] raises [IndexError] on
    a string of white space. *)
Definition get_command_code (full_command : str) : result str :=
  let first :=
    if Str.contains_char 0x20 full_command
    then match Str.split full_command with
         | t :: _ => Ok t
         | [] => Raise (Exn IndexError (py "list index out of range"))
         end
    else Ok full_command in
  match first with
  | Raise e => Raise e
  | Ok base_cmd =>
    let base_cmd :=
      if Str.eqb full_command (py "continuous_capture stop")
      then full_command else base_cmd in
    Ok (default (py "0x00000000") (COMMAND_MAPPING !! base_cmd))
  end.

Section Handlers.
Variable env : Env.

Definition failed (e : exn) : M (bool * str) := ret (false, exn_str e).

Definition hdmi_play_video (filepath : str) : M (bool * str) :=
  if negb (path_exists env filepath) then ret (false, py "文件不存在") else
  try_except
    (st <- get ;;
     match hdmi_player_process st with
     | Some p => port env (Process_terminate p) ;; port env (time_sleep 1)
     | None => ret tt
     end ;;
     p <- popen env [py "omxplayer"; py "--display=" ++ HDMI_DISPLAY;
                     py "--no-osd"; py "--aspect-mode=fill"; filepath] ;;
     modify (set_hdmi_player_process (Some p)) ;;
     ret (true, py "正在HDMI播放: " ++ filepath))
    is_Exception failed.

Definition hdmi_stop_video : M (bool * str) :=
  try_except
    (st <- get ;;
     match hdmi_player_process st with
     | Some p =>
       port env (Process_terminate p) ;;
       modify (set_hdmi_player_process None) ;;
       ret (true, py "HDMI播放已停止")
     | None => ret (false, py "没有正在播放的视频")
     end)
    is_Exception failed.

Definition tcp_send_file (target_ip filepath : str) : M (bool * str) :=
  if negb (path_exists env filepath) then ret (false, py "文件不存在")
  else ret (tcp_push env target_ip filepath).

Definition capture_image : M (bool * str) :=
  let filename :=
    os_path_join FILE_SAVE_PATH (py "capture_" ++ now_stamp env ++ py ".jpg") in
  try_except
    (port env picam2_start ;;
     port env (time_sleep 1) ;;
     port env (picam2_capture_file filename) ;;
     port env picam2_stop ;;
     ret (true, filename))
    is_Exception failed.

Definition start_continuous_capture (interval : float) : M (bool * str) :=
  st <- get ;;
  if continuous_capture st then ret (false, py "已经在连续拍摄模式") else
  modify (set_capture_interval interval) ;;
  modify (set_continuous_capture true) ;;
  port env (Thread_start capture_loop) ;;
  ret (true, py "开始连续拍摄，间隔 " ++ float_repr env interval ++ py " 秒").

Definition stop_continuous_capture : M (bool * str) :=
  modify (set_continuous_capture false) ;;
  ret (true, py "已停止连续拍摄").

Definition record_video (duration : float) : M (bool * str) :=
  let filename :=
    os_path_join FILE_SAVE_PATH (py "video_" ++ now_stamp env ++ py ".mp4") in
  try_except
    (port env picam2_configure_video ;;
     port env picam2_start ;;
     port env (time_sleep 1) ;;
     port env (picam2_start_and_record_video filename duration) ;;
     port env picam2_stop ;;
     ret (true, filename))
    is_Exception
    (fun e =>
       st <- get ;;
       (if picam2_started env (trace st) then port env picam2_stop else ret tt) ;;
       ret (false, exn_str e)).

Definition set_system_time (time_str : str) : M (bool * str) :=
  try_except
    (try_except
       (match strptime_error env time_str with
        | Some msg => raise (Exn ValueError msg)
        | None => ret tt
        end ;;
        let argv := [py "sudo"; py "timedatectl"; py "set-time"; time_str] in
        port env (subprocess_run argv) ;;
        let '(returncode, stderr) := run_result env argv in
        if (returncode =? 0)%Z
        then ret (true, py "系统时间已设置为 " ++ time_str)
        else ret (false, stderr))
       is_ValueError
       (fun _ => ret (false, py "时间格式错误，应为 YYYY-MM-DD HH:MM:SS")))
    is_Exception failed.

Definition control_led (state : str) : M (bool * str) :=
  if negb (GPIO_AVAILABLE env) then ret (false, py "GPIO不可用") else
  try_except
    (if Str.eqb (py_lower env state) (py "on") then
       gpio_output_led env true ;; ret (true, py "LED已开启")
     else if Str.eqb (py_lower env state) (py "off") then
       gpio_output_led env false ;; ret (true, py "LED已关闭")
     else ret (false, py "无效的状态 (on/off)"))
    is_Exception failed.

Definition display_file (filepath : str) : M (bool * str) :=
  if negb (path_exists env filepath) then ret (false, py "文件不存在") else
  try_except
    (if lower_endswith_any env filepath [".png"; ".jpg"; ".jpeg"]%string then
       popen env [py "fbi"; py "-T"; py "1"; py "-noverbose"; py "-a"; filepath] ;;
       ret (true, py "正在显示图片: " ++ filepath)
     else if lower_endswith_any env filepath [".mp4"; ".avi"; ".h264"]%string then
       popen env [py "omxplayer"; filepath] ;;
       ret (true, py "正在播放视频: " ++ filepath)
     else ret (false, py "不支持的文件格式"))
    is_Exception failed.

Definition serial_send (port_name data : str) : M (bool * str) :=
  match ser_connections env port_name with
  | Some true =>
    try_except
      (port env (Serial_write port_name data) ;;
       ret (true, py "已通过 " ++ port_name ++ py " 发送: " ++ data))
      is_Exception failed
  | _ => ret (false, py "串口 " ++ port_name ++ py " 不可用")
  end.

Definition start_audio_recording : M (bool * str) :=
  st <- get ;;
  if is_audio_recording st then ret (false, py "已经在录音中") else
  try_except
    (port env audio_open_input ;;
     modify (set_is_audio_recording true) ;;
     port env (Thread_start recording_thread) ;;
     ret (true, py "录音已开始"))
    is_Exception failed.

Definition stop_audio_recording : M (bool * str) :=
  st <- get ;;
  if negb (is_audio_recording st) then ret (false, py "没有正在进行的录音") else
  try_except
    (modify (set_is_audio_recording false) ;;
     port env audio_stream_stop ;;
     port env audio_stream_close ;;
     let filename :=
       os_path_join AUDIO_RECORD_PATH
         (py "recording_" ++ now_stamp env ++ py ".wav") in
     port env (wave_write filename) ;;
     ret (true, py "录音已保存: " ++ filename))
    is_Exception failed.

Definition play_audio (filepath : str) : M (bool * str) :=
  if negb (path_exists env filepath) then ret (false, py "文件不存在") else
  try_except
    (if negb (lower_endswith_any env filepath [".wav"]%string)
     then ret (false, py "仅支持WAV格式音频")
     else port env (Thread_start (play_thread filepath)) ;;
          ret (true, py "正在播放: " ++ filepath))
    is_Exception failed.

Definition run_oled_script : M (bool * str) :=
  try_except
    (let argv := [py "/usr/bin/python3"; SCRIPT_PATHS_oled] in
     port env (subprocess_run argv) ;;
     let '(returncode, stderr) := run_result env argv in
     if (returncode =? 0)%Z then ret (true, py "OLED脚本执行成功")
     else ret (false, stderr))
    is_Exception failed.

(** The [if]/[elif] chain of [udp_command_server]: from the code and the
    words of the command to [(success, result)]. *)
Definition dispatch (cmd_code : str) (parts : list str) : M (bool * str) :=
  let on k := Str.eqb cmd_code (code_of k) in
  if on "capture"%string then capture_image
  else if on "continuous_capture"%string then
    match parts with
    | _ :: arg :: _ =>
      try_except
        (interval <- py_float env arg ;; start_continuous_capture interval)
        is_ValueError (fun _ => ret (false, py "无效的间隔时间"))
    | _ => start_continuous_capture 1%float
    end
  else if on "continuous_capture stop"%string then stop_continuous_capture
  else if on "record"%string then
    match parts with
    | _ :: arg :: _ =>
      try_except
        (duration <- py_float env arg ;; record_video duration)
        is_ValueError (fun _ => ret (false, py "无效的录制时长"))
    | _ => ret (false, py "需要指定录制时长")
    end
  else if on "set_time"%string then
    match parts with
    | _ :: _ :: _ => set_system_time (Str.join (py " ") (tl parts))
    | _ => ret (false, py "需要指定时间")
    end
  else if on "led_on"%string then control_led (py "on")
  else if on "led_off"%string then control_led (py "off")
  else if on "display"%string then
    match parts with
    | _ :: arg :: _ => display_file arg
    | _ => ret (false, py "需要指定文件路径")
    end
  else if on "serial"%string then
    match parts with
    | _ :: p :: _ :: _ => serial_send p (Str.join (py " ") (tl (tl parts)))
    | _ => ret (false, py "需要指定串口和数据")
    end
  else if on "audio_record_start"%string then start_audio_recording
  else if on "audio_record_stop"%string then stop_audio_recording
  else if on "audio_play"%string then
    match parts with
    | _ :: arg :: _ => play_audio arg
    | _ => ret (false, py "需要指定音频文件")
    end
  else if on "run_script oled"%string then run_oled_script
  else if on "hdmi_play"%string then
    match parts with
    | _ :: arg :: _ => hdmi_play_video arg
    | _ => ret (false, py "需要指定视频文件")
    end
  else if on "hdmi_stop"%string then hdmi_stop_video
  else if on "tcp_send_file"%string then
    match parts with
    | _ :: ip :: f :: _ => tcp_send_file ip f
    | _ => ret (false, py "需要指定目标IP和文件路径")
    end
  else ret (false, py "未知命令").

(** The response built from a dispatched command, inside the loop's
    [try]. *)
Definition respond (cmd_code command : str) : M str :=
  try_except
    (r <- dispatch cmd_code (Str.split command) ;;
     let '(success, result) := r in
     let status := if (success : bool) then py "SUCCESS" else py "ERROR" in
     ret (cmd_code ++ py ":" ++ status ++ py ":" ++ result))
    is_Exception
    (fun e => ret (cmd_code ++ py ":ERROR:" ++ exn_str e)).

(** One round of the [while True] loop of [udp_command_server] on the
    datagram [data]: the response sent, or the exception that leaves the
    loop. [data.decode()] and [get_command_code] run before the [try]. *)
Definition udp_command_server (data : bytes) : M str :=
  match Utf8.decode data with
  | None => raise (Exn UnicodeDecodeError (decode_error env data))
  | Some text =>
    let command := Str.strip text in
    match get_command_code command with
    | Raise e => raise e
    | Ok cmd_code => respond cmd_code command
    end
  end.

End Handlers.
End PiFinal.

(* ===================================================================== *)
(** ** pi.py: plain text dispatch *)
(* ===================================================================== *)

Module Pi.

Definition SCRIPT_PATHS_oled : str :=
  py "/home/ppt5517/OLED_Module_Code/RaspberryPi/python/example/ppt.py".

Section Handlers.
Variable env : Env.

Definition start_capture_thread : M unit :=
  modify (set_continuous_capture true) ;;
  port env (Thread_start continuous_capture_func).

(** The branch [command.startswith("continuous_capture")]. *)
Definition continuous_capture_command (command : str) : M str :=
  match Str.split command with
  | [_] => start_capture_thread ;; ret (py "OK")
  | [_; arg] =>
    if Str.eqb arg (py "stop") then
      modify (set_continuous_capture false) ;; ret (py "连续拍摄停止")
    else
      try_except
        (interval <- py_float env arg ;;
         if (0 <? interval)%float then
           modify (set_capture_interval interval) ;;
           start_capture_thread ;;
           ret (py "OK")
         else ret (py "ERROR:间隔时间必须大于0"))
        is_ValueError (fun _ => ret (py "ERROR:无效的间隔时间"))
  | _ => ret (py "ERROR:无效的连续拍摄命令")
  end.

(** The branch [command.startswith("record")]. *)
Definition record_command (command : str) : M str :=
  match Str.split command with
  | [w; arg] =>
    if Str.eqb w (py "record") then
      try_except
        (duration <- py_float env arg ;;
         if (duration <=? 0)%float then ret (py "ERROR:时长必须大于0") else
         let filename := FILE_SAVE_PATH ++ py "video_" ++ now_stamp env ++ py ".mp4" in
         try_except
           (port env picam2_configure_video ;;
            port env picam2_start ;;
            port env (time_sleep 1) ;;
            port env (picam2_start_and_record_video filename duration) ;;
            port env picam2_stop ;;
            ret (py "RECORDING_COMPLETE:" ++ filename))
           is_Exception
           (fun e =>
              st <- get ;;
              (if picam2_started env (trace st) then port env picam2_stop else ret tt) ;;
              ret (py "RECORDING_ERROR:" ++ exn_str e)))
        is_ValueError (fun _ => ret (py "ERROR:无效时长"))
    else ret (py "ERROR:格式应为'record <时长>'")
  | _ => ret (py "ERROR:格式应为'record <时长>'")
  end.

Definition run_script_command : M str :=
  try_except
    (let cmd := py "/usr/bin/python3 " ++ SCRIPT_PATHS_oled in
     port env (os_system cmd) ;;
     let return_code := system_status env cmd in
     if (return_code =? 0)%Z then ret (py "SUCCESS:脚本执行成功")
     else ret (py "ERROR:脚本执行失败，返回码" ++ str_of_int return_code))
    is_Exception (fun e => ret (py "ERROR:" ++ exn_str e)).

Definition led_command (high : bool) : M str :=
  if GPIO_AVAILABLE env then gpio_output_led env high ;; ret (py "OK")
  else ret (py "ERROR:GPIO不可用").

Definition display_command (command : str) : M str :=
  match Str.split command with
  | [_; filepath] =>
    if path_exists env filepath then
      if lower_endswith_any env filepath [".png"; ".jpg"; ".jpeg"]%string then
        popen env [py "fbi"; py "-T"; py "1"; py "-noverbose"; py "-a"; filepath] ;;
        ret (py "OK")
      else if lower_endswith_any env filepath [".mp4"; ".avi"; ".h264"]%string then
        popen env [py "omxplayer"; filepath] ;; ret (py "OK")
      else ret (py "ERROR:不支持的文件格式")
    else ret (py "ERROR:文件不存在")
  | _ => ret (py "ERROR:无效的显示命令")
  end.

Definition serial_command (command : str) : M str :=
  match Str.split_max 3 command with
  | _ :: port_name :: _ :: data :: _ =>
    match ser_connections env port_name with
    | Some true =>
      try_except
        (port env (Serial_write port_name data) ;;
         ret (py "SERIAL_SENT:" ++ port_name ++ py ":" ++ data))
        is_Exception (fun e => ret (py "ERROR:串口发送失败 - " ++ exn_str e))
    | _ => ret (py "ERROR:串口 " ++ port_name ++ py " 不可用")
    end
  | _ => ret (py "ERROR:无效的串口命令格式，应为 'serial [port] [data]'")
  end.

Definition audio_record_start_command : M str :=
  let audio_file := os_path_join AUDIO_RECORD_PATH (py "recording.wav") in
  port env (os_system (py "arecord -d 10 -f cd -t wav " ++ audio_file ++ py " &")) ;;
  ret (py "AUDIO_RECORDING_STARTED:" ++ audio_file).

Definition audio_record_stop_command : M str :=
  port env (os_system (py "pkill -f arecord")) ;;
  ret (py "AUDIO_RECORDING_STOPPED").

Definition audio_play_command (command : str) : M str :=
  match Str.split command with
  | [_; audio_file] =>
    if path_exists env audio_file then
      port env (os_system (py "aplay " ++ audio_file ++ py " &")) ;;
      ret (py "AUDIO_PLAYING:" ++ audio_file)
    else ret (py "ERROR:音频文件不存在")
  | _ => ret (py "ERROR:无效的播放命令格式")
  end.

Definition capture_command : M str :=
  let filename := FILE_SAVE_PATH ++ py "capture_" ++ now_stamp env ++ py ".jpg" in
  port env picam2_start ;;
  port env (picam2_capture_file filename) ;;
  port env picam2_stop ;;
  ret (py "CAPTURED:" ++ filename).

(** The body of the [try] of [handle_udp_command]. *)
Definition dispatch (command : str) : M str :=
  if Str.eqb command (py "capture") then capture_command
  else if Str.startswith command (py "continuous_capture") then
    continuous_capture_command command
  else if Str.startswith command (py "record") then record_command command
  else if Str.eqb (Str.strip command) (py "run_script oled") then run_script_command
  else if Str.eqb command (py "led_on") then led_command true
  else if Str.eqb command (py "led_off") then led_command false
  else if Str.startswith command (py "display") then display_command command
  else if Str.startswith command (py "serial") then serial_command command
  else if Str.eqb command (py "audio_record_start") then audio_record_start_command
  else if Str.eqb command (py "audio_record_stop") then audio_record_stop_command
  else if Str.startswith command (py "audio_play") then audio_play_command command
  else ret (py "ERROR:未知命令").

(** One round of the [while True] loop of [handle_udp_command] on the
    datagram [data]: the response sent, or the exception that leaves the
    loop. [data.decode()] runs before the [try]. *)
Definition handle_udp_command (data : bytes) : M str :=
  match Utf8.decode data with
  | None => raise (Exn UnicodeDecodeError (decode_error env data))
  | Some text =>
    let command := Str.strip text in
    try_except (dispatch command) is_Exception
      (fun e => ret (py "ERROR:处理命令时出错 - " ++ exn_str e))
  end.

End Handlers.
End Pi.

(* ===================================================================== *)
(** ** pi2.py: binary opcode pairs *)
(* ===================================================================== *)

Module Pi2.

(** The integer keys of [COMMANDS]: primary opcodes. *)
Definition COMMANDS : gmap N (list N) :=
  list_to_map
    [ (0x0A5F, py "display"); (0x14BD, py "control"); (0x0011, py "capture");
      (0x0022, py "storage_clear"); (0x2E9A, py "data_return");
      (0x42EB, py "time_sync") ].

(** The string keys of [COMMANDS]: the sub-opcode table of a primary. *)
Definition SUB_COMMANDS : gmap (list N) (gmap N (list N)) :=
  list_to_map
    [ (py "display",
       list_to_map [ (0x0001, py "display_image"); (0x0002, py "play_video") ]);
      (py "control",
       list_to_map [ (0x0001, py "led_on"); (0x0002, py "led_off");
                     (0x0003, py "serial_send") ]);
      (py "capture",
       list_to_map [ (0x0001, py "single_capture"); (0x0002, py "start_continuous");
                     (0x0003, py "stop_continuous"); (0x0004, py "start_recording");
                     (0x0005, py "stop_recording") ]);
      (py "data_return",
       list_to_map [ (0x0001, py "send_file"); (0x0002, py "send_status") ]) ].

(** [s.split(':', 1)] *)
Fixpoint split_colon_from (cur s : str) : list str :=
  match s with
  | [] => [rev cur]
  | c :: r => if c =? 58 then [rev cur; r] else split_colon_from (c :: cur) r
  end.

Definition split_colon (s : str) : list str := split_colon_from [] s.

Section Handlers.
Variable env : Env.

(** [payload.decode('utf-8')] inside the [try]. *)
Definition decode_payload (payload : bytes) : M str :=
  match Utf8.decode payload with
  | Some s => ret s
  | None => raise (Exn UnicodeDecodeError (decode_error env payload))
  end.

Definition time_sync (payload : bytes) : M str :=
  try_except
    (text <- decode_payload payload ;;
     let time_str := Str.strip text in
     match strptime_error env time_str with
     | Some msg => raise (Exn ValueError msg)
     | None => ret tt
     end ;;
     let cmd := py "sudo timedatectl set-time " ++ [34] ++ time_str ++ [34] in
     port env (os_system cmd) ;;
     let return_code := system_status env cmd in
     if (return_code =? 0)%Z then ret (py "TIME_SET_SUCCESS:" ++ time_str)
     else ret (py "TIME_SET_FAILED:" ++ str_of_int return_code))
    is_Exception (fun e => ret (py "ERROR:时间格式无效 - " ++ exn_str e)).

Fixpoint remove_all (names : list str) : M unit :=
  match names with
  | [] => ret tt
  | f :: r =>
    (if existsb (fun pre => Str.startswith f (py pre))
          ["capture_"; "continuous_"; "video_"; "recording"]%string
     then port env (os_remove (os_path_join FILE_SAVE_PATH f))
     else ret tt) ;;
    remove_all r
  end.

Definition storage_clear : M str :=
  try_except
    (remove_all (listdir env FILE_SAVE_PATH) ;; ret (py "STORAGE_CLEARED"))
    is_Exception (fun e => ret (py "ERROR:清除存储失败 - " ++ exn_str e)).

Definition start_continuous (payload : bytes) : M str :=
  try_except
    (interval <- match payload with
                 | [] => ret 1%float
                 | _ => text <- decode_payload payload ;; py_float env text
                 end ;;
     if (0 <? interval)%float then
       modify (set_capture_interval interval) ;;
       modify (set_continuous_capture true) ;;
       port env (Thread_start continuous_capture_func) ;;
       ret (py "CONTINUOUS_CAPTURE_STARTED:" ++ float_repr env interval ++ py "s")
     else ret (py "ERROR:间隔时间必须大于0"))
    is_Exception (fun _ => ret (py "ERROR:无效的间隔时间")).

Definition serial_send (payload : bytes) : M str :=
  text <- decode_payload payload ;;
  match split_colon text with
  | [port_name; data] =>
    match ser_connections env port_name with
    | Some true =>
      try_except
        (port env (Serial_write port_name data) ;;
         ret (py "SERIAL_SENT:" ++ port_name ++ py ":" ++ data))
        is_Exception (fun e => ret (py "ERROR:串口发送失败 - " ++ exn_str e))
    | _ => ret (py "ERROR:串口 " ++ port_name ++ py " 不可用")
    end
  | _ => ret (py "ERROR:串口命令格式应为'port:data'")
  end.

(** The [if]/[elif] chain on [sub_cmd_name]; a sub-command without a
    branch leaves the initial response in place. *)
Definition sub_dispatch (sub_cmd_name : str) (payload : bytes) : M str :=
  let on k := Str.eqb sub_cmd_name (py k) in
  if on "led_on"%string then
    if GPIO_AVAILABLE env then gpio_output_led env true ;; ret (py "LED_ON")
    else ret (py "ERROR:GPIO不可用")
  else if on "led_off"%string then
    if GPIO_AVAILABLE env then gpio_output_led env false ;; ret (py "LED_OFF")
    else ret (py "ERROR:GPIO不可用")
  else if on "single_capture"%string then
    let filename := FILE_SAVE_PATH ++ py "capture_" ++ now_stamp env ++ py ".jpg" in
    port env picam2_start ;;
    port env (picam2_capture_file filename) ;;
    port env picam2_stop ;;
    ret (py "CAPTURED:" ++ filename)
  else if on "start_continuous"%string then start_continuous payload
  else if on "stop_continuous"%string then
    modify (set_continuous_capture false) ;; ret (py "CONTINUOUS_CAPTURE_STOPPED")
  else if on "display_image"%string then
    filepath <- decode_payload payload ;;
    if path_exists env filepath then
      popen env [py "fbi"; py "-T"; py "1"; py "-noverbose"; py "-a"; filepath] ;;
      ret (py "IMAGE_DISPLAY_STARTED")
    else ret (py "ERROR:图片文件不存在")
  else if on "send_file"%string then
    filepath <- decode_payload payload ;;
    if path_exists env filepath then
      port env (Thread_start (send_file filepath)) ;;
      ret (py "FILE_SEND_STARTED:" ++ filepath)
    else ret (py "ERROR:文件不存在")
  else if on "serial_send"%string then serial_send payload
  else ret (py "ERROR:无效指令").

(** The body of the [try] of [handle_udp_command]. *)
Definition dispatch (data : bytes) : M str :=
  if (4 <=? length data)%nat then
    let command := int_from_bytes (take 2 data) in
    let sub_command := int_from_bytes (take 2 (drop 2 data)) in
    let payload := drop 4 data in
    match COMMANDS !! command with
    | Some cmd_name =>
      if Str.eqb cmd_name (py "time_sync") then time_sync payload
      else if Str.eqb cmd_name (py "storage_clear") then storage_clear
      else match SUB_COMMANDS !! cmd_name with
           | Some sub_cmds =>
             match sub_cmds !! sub_command with
             | Some sub_cmd_name => sub_dispatch sub_cmd_name payload
             | None =>
               ret (py "ERROR:无效的子指令 0x" ++ hex4 sub_command
                    ++ py " 对于 " ++ cmd_name)
             end
           | None => ret (py "ERROR:无效指令")
           end
    | None => ret (py "ERROR:未知指令 0x" ++ hex4 command)
    end
  else ret (py "ERROR:指令长度不足").

(** One round of the [while True] loop of [handle_udp_command]: all of
    the decoding is inside the [try]. *)
Definition handle_udp_command (data : bytes) : M str :=
  try_except (dispatch data) is_Exception
    (fun e => ret (py "ERROR:处理指令时出错 - " ++ exn_str e)).

End Handlers.
End Pi2.

(* ===================================================================== *)
(** ** File storage, the datagram file receiver (pi.py, pi2.py) *)
(* ===================================================================== *)

(** The storage the TCP upload session writes to: contents by path.
    Opening, writing, renaming and removing a file are taken to succeed. *)
Abbreviation storage := (gmap (list N) (list byte)).

(** [bs.split(b'\x00')[0]] *)
Fixpoint before_nul (bs : bytes) : bytes :=
  match bs with
  | [] => []
  | b :: r => if Byte.eqb b x00 then [] else b :: before_nul r
  end.

(** The name a datagram carries: its first 100 bytes up to the first NUL,
    decoded with the ill-formed bytes dropped, and stripped. *)
Definition packet_name (data : bytes) : str :=
  Str.strip (Utf8.decode_ignore (before_nul (take 100 data))).

(** [os.path.normpath] of an absolute path: the components that remain
    once [.], empty components and [..] are resolved. *)
Fixpoint split_slash_from (cur s : str) : list str :=
  match s with
  | [] => [rev cur]
  | c :: r => if c =? 47 then rev cur :: split_slash_from [] r
              else split_slash_from (c :: cur) r
  end.

Definition norm_step (acc : list str) (comp : str) : list str :=
  if Str.eqb comp [] || Str.eqb comp (py ".") then acc
  else if Str.eqb comp (py "..") then removelast acc
  else acc ++ [comp].

Definition normpath_components (path : str) : list str :=
  fold_left norm_step (split_slash_from [] path) [].

(** [path] names something below the directory [dir] (both absolute). *)
Definition is_under (dir path : str) : bool :=
  let d := normpath_components dir in
  let q := normpath_components path in
  (length d <? length q)%nat && bool_decide (take (length d) q = d).

(** The file system the receiver writes to: the directories and the
    files, each named by the components of its resolved path below the
    root (there are no symbolic links). The root is a directory. *)
Record FileSystem := {
  dirs : gset (list (list N));
  files : gmap (list (list N)) (list byte)
}.

(** The part of the operating system in [open] and [write]. *)
Record Os := {
  open_error_text : str -> str;
    (* str(e) of the OSError that open(path, 'wb') raises *)
  open_denied : list str -> bool;
    (* the file cannot be opened for writing for a reason other than the
       shape of the path: permissions, a read-only device *)
  write_error : list str -> bytes -> option (str * nat)
    (* Some (msg, k): f.write or the closing flush raises an OSError with
       text msg after k bytes have reached the file *)
}.

Definition is_dir (fs : FileSystem) (key : list str) : bool :=
  bool_decide (key = []) || bool_decide (key ∈ dirs fs).

(** The walk of the operating system along the components of an absolute
    path, from the directory [cur]: the file the path names, in an
    existing directory, or [None] when a component on the way is not a
    directory or the path names a directory. *)
Fixpoint locate (fs : FileSystem) (cur : list str) (comps : list str)
    : option (list str) :=
  match comps with
  | [] => None
  | c :: rest =>
    if Str.eqb c [] || Str.eqb c (py ".") then locate fs cur rest
    else if Str.eqb c (py "..") then locate fs (removelast cur) rest
    else
      match rest with
      | [] => if is_dir fs cur then Some (cur ++ [c]) else None
      | _ => if is_dir fs (cur ++ [c]) then locate fs (cur ++ [c]) rest else None
      end
  end.

(** [open(path, 'wb')] for an absolute [path]: the file opened, or the
    [OSError] raised. *)
Definition open_wb (os : Os) (fs : FileSystem) (path : str) : result (list str) :=
  match locate fs [] (split_slash_from [] path) with
  | Some key =>
    if is_dir fs key || open_denied os key
    then Raise (Exn OtherError (open_error_text os path))
    else Ok key
  | None => Raise (Exn OtherError (open_error_text os path))
  end.

Definition set_file (key : list str) (content : bytes) (fs : FileSystem)
    : FileSystem :=
  {| dirs := dirs fs; files := <[key := content]> (files fs) |}.

(** One round of the loop of [file_receiver] on the datagram [data]: the
    reply handed to [sock.sendto] and the file system afterwards. *)
Definition file_receiver (os : Os) (data : bytes) (fs : FileSystem)
    : str * FileSystem :=
  let filename := packet_name data in
  match filename with
  | [] => (py "ERROR:" ++ py "无效文件名", fs)
  | _ =>
    let file_data := drop 100 data in
    let save_path := os_path_join FILE_SAVE_PATH filename in
    match open_wb os fs save_path with
    | Raise e => (py "ERROR:" ++ exn_str e, fs)
    | Ok key =>
      match write_error os key file_data with
      | Some (msg, k) =>
        (py "ERROR:" ++ msg, set_file key (take k file_data) fs)
      | None => (py "FILE_SAVED", set_file key file_data fs)
      end
    end
  end.

(* ===================================================================== *)
(** ** pi_final.py: the TCP upload session and content sniffing *)
(* ===================================================================== *)

Module Upload.

(** What the peer and the network do on each [conn.recv]: deliver bytes
    or end the call with an exception. An exhausted script is a closed
    connection. *)
Inductive recv_event :=
| Chunk (bs : bytes)
| RecvError (e : exn).

Record Conn := {
  inbound : list recv_event;
  outbound : list str          (* what [conn.sendall] has sent, oldest first *)
}.

(** The bytes a connection delivers before it ends or fails. *)
Fixpoint stream (events : list recv_event) : bytes :=
  match events with
  | Chunk bs :: rest => bs ++ stream rest
  | _ => []
  end.

(** [conn.recv(n)]: at most [n] of the bytes at hand; the rest stays
    queued. [b''] on a closed connection. *)
Definition conn_recv (n : N) (c : Conn) : result bytes * Conn :=
  match inbound c with
  | [] => (Ok [], c)
  | Chunk bs :: rest =>
    if N.of_nat (length bs) <=? n
    then (Ok bs, {| inbound := rest; outbound := outbound c |})
    else (Ok (take (N.to_nat n) bs),
          {| inbound := Chunk (drop (N.to_nat n) bs) :: rest;
             outbound := outbound c |})
  | RecvError e :: rest =>
    (Raise e, {| inbound := rest; outbound := outbound c |})
  end.

Definition conn_sendall (msg : str) (c : Conn) : Conn :=
  {| inbound := inbound c; outbound := outbound c ++ [msg] |}.

(** [f.write(chunk)] on the file open at [filepath]. *)
Definition file_append (filepath : str) (chunk : bytes) (fs : storage) : storage :=
  <[filepath := default [] (fs !! filepath) ++ chunk]> fs.

Fixpoint bytes_startswith (bs p : bytes) : bool :=
  match p, bs with
  | [], _ => true
  | a :: p', b :: bs' => Byte.eqb a b && bytes_startswith bs' p'
  | _ :: _, [] => false
  end.

(** [bs[i:j]] *)
Definition slice (i j : nat) (bs : bytes) : bytes := take (j - i) (drop i bs).

Fixpoint bytes_eqb (a b : bytes) : bool :=
  match a, b with
  | [], [] => true
  | x :: a', y :: b' => Byte.eqb x y && bytes_eqb a' b'
  | _, _ => false
  end.

Definition sig_JPEG : bytes := [xff; xd8; xff].
Definition sig_PNG : bytes := [x89; x50; x4e; x47].
Definition sig_MP4 : bytes := [x00; x00; x00; x20].
Definition sig_RIFF : bytes := [x52; x49; x46; x46].
Definition sig_WAVE : bytes := [x57; x41; x56; x45].

(** [guess_file_type(filepath)], with [timestamp] the time of the call:
    the path returned and the storage afterwards. A missing file makes
    [open] raise, and the handler returns [filepath]. *)
Definition guess_file_type (timestamp filepath : str) (fs : storage)
    : str * storage :=
  match fs !! filepath with
  | None => (filepath, fs)
  | Some content =>
    let header := take 4 content in
    let new_path :=
      if bytes_startswith header sig_JPEG then
        os_path_join FILE_SAVE_PATH (py "image_" ++ timestamp ++ py ".jpg")
      else if bytes_startswith header sig_PNG then
        os_path_join FILE_SAVE_PATH (py "image_" ++ timestamp ++ py ".png")
      else if bytes_startswith header sig_MP4 then
        os_path_join FILE_SAVE_PATH (py "video_" ++ timestamp ++ py ".mp4")
      else if bytes_startswith header sig_RIFF
              && bytes_eqb (slice 8 12 header) sig_WAVE then
        os_path_join AUDIO_RECORD_PATH (py "audio_" ++ timestamp ++ py ".wav")
      else filepath in
    if negb (Str.eqb new_path filepath)
    then (new_path, <[new_path := content]> (delete filepath fs))
    else (new_path, fs)
  end.

Definition inspect {A} (a : A) : {b | a = b} := exist _ a eq_refl.

(** The [while received < file_size] loop: the final [received], or the
    exception [conn.recv] raised, with the connection and storage left. *)
Equations? recv_loop (file_size : N) (filepath : str) (received : N)
    (conn : Conn) (fs : storage) : result N * Conn * storage
    by wf (N.to_nat (file_size - received)) lt :=
  recv_loop file_size filepath received conn fs
    with inspect (received <? file_size) := {
    | exist _ false _ => (Ok received, conn, fs)
    | exist _ true Hlt
        with conn_recv (N.min 4096 (file_size - received)) conn := {
      | (Raise e, conn') => (Raise e, conn', fs)
      | (Ok [], conn') => (Ok received, conn', fs)
      | (Ok (b :: chunk), conn') =>
        recv_loop file_size filepath
          (received + N.of_nat (length (b :: chunk))) conn'
          (file_append filepath (b :: chunk) fs) } }.
Proof.
  apply N.ltb_lt in Hlt. cbn [length]. lia.
Qed.

(** [handle_tcp_file_transfer(conn, addr)]: the value returned, the
    connection and the storage afterwards. [timestamp] names the upload,
    [timestamp'] is the time of the sniffing. *)
Definition handle_tcp_file_transfer (timestamp timestamp' : str)
    (conn : Conn) (fs : storage) : option str * Conn * storage :=
  let fail (e : exn) (conn : Conn) (fs : storage) :=
    (None, conn_sendall (py "ERROR:" ++ exn_str e) conn, fs) in
  match conn_recv 6 conn with
  | (Raise e, conn1) => fail e conn1 fs
  | (Ok header, conn1) =>
    if negb (length header =? 6)%nat
    then fail (Exn ValueError (py "无效的文件头长度")) conn1 fs
    else
      let file_size := int_from_bytes (drop 2 header) in
      let filepath :=
        os_path_join FILE_SAVE_PATH (py "upload_" ++ timestamp ++ py ".bin") in
      match recv_loop file_size filepath 0 conn1 (<[filepath := []]> fs) with
      | (Raise e, conn2, fs2) => fail e conn2 fs2
      | (Ok received, conn2, fs2) =>
        if received =? file_size then
          let conn3 := conn_sendall (py "FILE_TRANSFER_SUCCESS") conn2 in
          let '(new_path, fs3) := guess_file_type timestamp' filepath fs2 in
          (Some new_path, conn3, fs3)
        else
          fail (Exn ValueError
                  (py "文件接收不完整 (" ++ str_of_int (Z.of_N received)
                   ++ py "/" ++ str_of_int (Z.of_N file_size) ++ py " 字节)"))
               conn2 (delete filepath fs2)
      end
  end.

End Upload.

(* ===================================================================== *)
(** ** A concrete environment for the examples *)
(* ===================================================================== *)

(** [float] on the three literals the examples use. *)
Definition bench_float (s : str) : option float :=
  if Str.eqb s (py "0") then Some 0%float
  else if Str.eqb s (py "2") then Some 2%float
  else if Str.eqb s (py "-1") then Some (-1)%float
  else None.

(** Every file exists, no port call raises, GPIO and both serial ports
    are present. *)
Definition bench_env : Env :=
  {| float_of_str := bench_float;
     float_repr := fun _ => py "0.0";
     str_lower := fun s => s;
     path_exists := fun _ => true;
     now_stamp := py "20250101_000000";
     strptime_error := fun _ => None;
     decode_error := fun _ => py "'utf-8' codec can't decode byte";
     raises := fun _ => None;
     system_status := fun _ => 0%Z;
     run_result := fun _ => (0%Z, []);
     listdir := fun _ => [];
     tcp_push := fun _ _ => (true, []);
     picam2_started := fun _ => false;
     GPIO_AVAILABLE := true;
     ser_connections := fun _ => Some true |}.

(** The datagram that carries the text [s]. *)
Definition datagram (s : string) : bytes := String.list_byte_of_string s.

(** The name field of a sender: the name bytes padded with NULs to 100. *)
Definition name_field (name : string) : bytes :=
  take 100 (datagram name ++ repeat x00 (100 - length (datagram name))).

(** The directories [os.makedirs] leaves at module load, and no file. *)
Definition loaded_fs : FileSystem :=
  {| dirs := {[ [py "home"]; [py "home"; py "ppt5517"];
                [py "home"; py "ppt5517"; py "received_files"];
                [py "home"; py "ppt5517"; py "received_files";
                 py "audio_recordings"] ]};
     files := ∅ |}.

(** An operating system that refuses nothing. *)
Definition bench_os : Os :=
  {| open_error_text := fun path => py "[Errno 21] Is a directory: '" ++ path ++ py "'";
     open_denied := fun _ => false;
     write_error := fun _ _ => None |}.

(** A byte of printable ASCII other than the space. *)
Definition printable (b : byte) : bool :=
  (0x21 <=? Byte.to_N b) && (Byte.to_N b <=? 0x7E).

(** The text that ASCII bytes carry. *)
Definition text_of (bs : bytes) : str := map Byte.to_N bs.

(** A word of a text: not empty, and without white space. *)
Definition word (w : list N) : Prop :=
  w <> [] /\ forallb (fun c => negb (Str.isspace c)) w = true.

(** A path component that names an entry of a directory. *)
Definition names_entry (c : list N) : Prop :=
  Str.eqb c [] = false /\ Str.eqb c (py ".") = false
  /\ Str.eqb c (py "..") = false.

(** The datagram of a command: its words, separated by single spaces. *)
Fixpoint wire (words : list bytes) : bytes :=
  match words with
  | [] => []
  | [w] => w
  | w :: r => w ++ x20 :: wire r
  end.

(** An event of a connection that delivers at least one byte. *)
Definition delivers (ev : Upload.recv_event) : bool :=
  match ev with
  | Upload.Chunk (_ :: _) => true
  | _ => false
  end.

(** The keys of [PiFinal.COMMAND_MAPPING]. *)
Definition mapping_keys : list str :=
  Eval vm_compute in
  map py
    ["capture"; "continuous_capture"; "continuous_capture stop"; "record";
     "audio_record_start"; "audio_record_stop"; "audio_play"; "set_time";
     "file_transfer"; "download"; "hdmi_play"; "hdmi_stop"; "tcp_send_file";
     "run_script oled"; "led_on"; "led_off"; "display"; "serial"]%string.

(** The first word of a command, if it has one. *)
Definition first_token (command : str) : option str := head (Str.split command).

(** A state in which a player, started first as process 0, is held. *)
Definition playing_state : State :=
  set_hdmi_player_process (Some 0%nat)
    (log_call (Popen [py "omxplayer"; py "/a.mp4"]) initial_state).

(** An upload of five declared bytes that arrives in two segments. *)
Definition bench_upload : Upload.Conn :=
  {| Upload.inbound :=
       [Upload.Chunk [x00; x01; x00; x00; x00; x05];
        Upload.Chunk (datagram "abc"); Upload.Chunk (datagram "de")];
     Upload.outbound := [] |}.

(* ===================================================================== *)
(** ** Properties *)
(* ===================================================================== *)

Section StrFacts.

Lemma Str_eqb_refl (s : str) : Str.eqb s s = true.
Proof.
  induction s as [|c s IH]; simpl; [reflexivity|].
  by rewrite N.eqb_refl.
Qed.

Lemma Str_eqb_eq (s t : str) : Str.eqb s t = true <-> s = t.
Proof.
  split; [|intros ->; apply Str_eqb_refl].
  revert t; induction s as [|c s IH]; intros [|d t]; simpl; try done.
  intros [H1 H2]%andb_prop. apply N.eqb_eq in H1. apply IH in H2. by subst.
Qed.

Lemma Str_eqb_neq (s t : str) : Str.eqb s t = false <-> s <> t.
Proof.
  rewrite <- Str_eqb_eq. destruct (Str.eqb s t); split; congruence.
Qed.

End StrFacts.

(* --------------------------------------------------------------------- *)
(** *** Content sniffing after an upload (pi_final.py) *)

Section Sniffing.
Import Upload.

(** The WAV test reads bytes 8 to 11 of a header that has four bytes. *)
Lemma wave_slice_empty (content : bytes) :
  slice 8 12 (take 4 content) = [].
Proof.
  unfold slice. rewrite drop_ge; [reflexivity|].
  rewrite length_take. lia.
Qed.

Lemma wave_test_false (content : bytes) :
  bytes_startswith (take 4 content) sig_RIFF
  && bytes_eqb (slice 8 12 (take 4 content)) sig_WAVE = false.
Proof. rewrite wave_slice_empty. apply andb_false_r. Qed.

(** No file at all is renamed to a [.wav] name: the path returned is the
    original one or an image or video name. *)
Lemma guess_file_type_never_wav (ts filepath : str) (fs : storage) :
  let new_path := (guess_file_type ts filepath fs).1 in
  new_path = filepath
  \/ new_path = os_path_join FILE_SAVE_PATH (py "image_" ++ ts ++ py ".jpg")
  \/ new_path = os_path_join FILE_SAVE_PATH (py "image_" ++ ts ++ py ".png")
  \/ new_path = os_path_join FILE_SAVE_PATH (py "video_" ++ ts ++ py ".mp4").
Proof.
  unfold guess_file_type. destruct (fs !! filepath) as [content|]; [|by left].
  rewrite wave_test_false.
  destruct (bytes_startswith (take 4 content) sig_JPEG);
    [destruct (negb _); simpl; auto|].
  destruct (bytes_startswith (take 4 content) sig_PNG);
    [destruct (negb _); simpl; auto|].
  destruct (bytes_startswith (take 4 content) sig_MP4);
    [destruct (negb _); simpl; auto|].
  rewrite Str_eqb_refl. simpl. auto.
Qed.

(** C8 (evaluation at the failing input). A stored upload that is a valid
    WAV file -- [RIFF], four bytes of length, [WAVE], then anything -- is
    not reclassified: [guess_file_type] returns the generic path and
    leaves the storage as it was. *)
Theorem guess_file_type_wav_not_renamed :
  forall (ts filepath : str) (l1 l2 l3 l4 : byte) (rest : bytes) (fs : storage),
    let wav := sig_RIFF ++ [l1; l2; l3; l4] ++ sig_WAVE ++ rest in
    let stored := <[filepath := wav]> fs in
    guess_file_type ts filepath stored = (filepath, stored).
Proof.
  intros ts filepath l1 l2 l3 l4 rest fs wav stored.
  unfold guess_file_type, stored. rewrite lookup_insert_eq.
  rewrite wave_test_false.
  change (take 4 wav) with sig_RIFF.
  change (bytes_startswith sig_RIFF sig_JPEG) with false.
  change (bytes_startswith sig_RIFF sig_PNG) with false.
  change (bytes_startswith sig_RIFF sig_MP4) with false.
  cbv iota. rewrite Str_eqb_refl. reflexivity.
Qed.

(** The other three signatures do rename. *)
Example guess_file_type_jpeg :
  guess_file_type (py "T") (py "/up.bin") (<[py "/up.bin" := [xff; xd8; xff; xe0]]> ∅)
  = (os_path_join FILE_SAVE_PATH (py "image_T.jpg"),
     <[os_path_join FILE_SAVE_PATH (py "image_T.jpg") := [xff; xd8; xff; xe0]]> ∅).
Proof. vm_compute. reflexivity. Qed.

End Sniffing.

(* --------------------------------------------------------------------- *)
(** *** Command codes (pi_final.py) *)

Section CommandCodes.
Import PiFinal.

Lemma mapping_key_cases (k c : str) :
  COMMAND_MAPPING !! k = Some c -> k ∈ mapping_keys.
Proof.
  intros H. apply elem_of_list_to_map_2 in H.
  unfold COMMAND_ITEMS in H. unfold mapping_keys.
  repeat (apply elem_of_cons in H as [H|H];
          [injection H as -> _;
           repeat first [apply list_elem_of_here | apply list_elem_of_further]|]).
  by apply elem_of_nil in H.
Qed.

(** A key without a space is its own first word; the two keys with a
    space start with the words [continuous_capture] and [run_script]. *)
Lemma first_token_of_key (k : str) :
  k ∈ mapping_keys ->
  Str.contains_char 0x20 k = false -> first_token k = Some k.
Proof.
  unfold mapping_keys. intros Hk Hsp.
  repeat (apply elem_of_cons in Hk as [->|Hk]; [by vm_compute in Hsp |- *|]).
  by apply elem_of_nil in Hk.
Qed.

(** With the code [0x00000000] every test of the dispatcher fails. *)
Lemma dispatch_unknown (env : Env) (parts : list str) :
  dispatch env (py "0x00000000") parts = ret (false, py "未知命令").
Proof. vm_compute. reflexivity. Qed.

Lemma respond_unknown (env : Env) (command : str) (st : State) :
  respond env (py "0x00000000") command st
  = (Ok (py "0x00000000:ERROR:未知命令"), st).
Proof. unfold respond. rewrite dispatch_unknown. vm_compute. reflexivity. Qed.

(** C9. A command that is a key of [COMMAND_MAPPING] with a space in it,
    other than [continuous_capture stop] (so: [run_script oled]), and a
    command whose first word is not a key, both get the code
    [0x00000000], and the dispatcher answers with the unknown-command
    error and leaves the state alone. *)
Theorem get_command_code_first_token_only :
  forall command : str,
    ((exists code, COMMAND_MAPPING !! command = Some code)
       /\ Str.contains_char 0x20 command = true
       /\ command <> py "continuous_capture stop")
    \/ (exists tok, first_token command = Some tok
                    /\ COMMAND_MAPPING !! tok = None) ->
    get_command_code command = Ok (py "0x00000000")
    /\ forall (env : Env) (st : State),
         respond env (py "0x00000000") command st
         = (Ok (py "0x00000000:ERROR:未知命令"), st).
Proof.
  intros command H. split; [|intros; apply respond_unknown].
  destruct H as [[[code Hc] [Hsp Hne]] | [tok [Htok Hnone]]].
  - apply mapping_key_cases in Hc. unfold mapping_keys in Hc.
    repeat (apply elem_of_cons in Hc as [->|Hc];
            [first [ by vm_compute in Hsp | done | by vm_compute ]|]).
    by apply elem_of_nil in Hc.
  - unfold get_command_code. unfold first_token in Htok.
    destruct (Str.eqb command (py "continuous_capture stop")) eqn:Hstop.
    + apply Str_eqb_eq in Hstop. subst command.
      vm_compute in Htok. injection Htok as <-. by vm_compute in Hnone.
    + destruct (Str.contains_char 32 command) eqn:Hsp.
      * destruct (Str.split command) as [|t ts]; [done|].
        simpl in Htok. injection Htok as ->. by rewrite Hnone.
      * destruct (COMMAND_MAPPING !! command) as [code|] eqn:Hc; [|done].
        pose proof (mapping_key_cases _ _ Hc) as Hk.
        pose proof (first_token_of_key _ Hk Hsp) as Hft.
        unfold first_token in Hft. rewrite Hft in Htok.
        injection Htok as <-. congruence.
Qed.

(** [run_script oled] is in the table, and is answered as unknown. *)
Lemma run_script_oled_is_unknown (env : Env) (st : State) :
  COMMAND_MAPPING !! py "run_script oled" = Some (py "0x30020001")
  /\ udp_command_server env (datagram "run_script oled") st
     = (Ok (py "0x00000000:ERROR:未知命令"), st).
Proof. split; vm_compute; reflexivity. Qed.

Lemma get_command_code_first_token_only_witness :
  get_command_code (py "run_script oled") = Ok (py "0x00000000")
  /\ forall (env : Env) (st : State),
       respond env (py "0x00000000") (py "run_script oled") st
       = (Ok (py "0x00000000:ERROR:未知命令"), st).
Proof.
  apply (get_command_code_first_token_only (py "run_script oled")).
  left. split.
  - eexists. vm_compute. reflexivity.
  - split.
    + vm_compute. reflexivity.
    + vm_compute. discriminate.
Defined.

End CommandCodes.


(* --------------------------------------------------------------------- *)
(** *** ASCII text: decoding, stripping, splitting *)

Section TextFacts.

Lemma printable_ascii (b : byte) :
  printable b = true -> (Byte.to_N b <? 0x80) = true.
Proof.
  unfold printable. intros [_ H]%andb_prop. apply N.leb_le in H.
  apply N.ltb_lt. lia.
Qed.

Lemma printable_not_space (b : byte) :
  printable b = true -> Str.isspace (Byte.to_N b) = false.
Proof.
  unfold printable. intros [H1 H2]%andb_prop.
  apply N.leb_le in H1. apply N.leb_le in H2.
  apply not_true_is_false. unfold Str.isspace. intros H.
  rewrite !orb_true_iff, !andb_true_iff, !N.leb_le, !N.eqb_eq in H. lia.
Qed.

Lemma printable_not_nul (b : byte) : printable b = true -> Byte.eqb b x00 = false.
Proof.
  intros H. destruct (Byte.eqb b x00) eqn:E; [|reflexivity].
  apply Byte.byte_dec_bl in E. subst b. discriminate H.
Qed.

(** Bytes below [0x80] decode to themselves. *)
Lemma scan_ascii (bs : bytes) :
  forallb (fun b => Byte.to_N b <? 0x80) bs = true ->
  Utf8.scan bs = map (fun b => Some (Byte.to_N b)) bs.
Proof.
  induction bs as [|b bs IH]; [reflexivity|].
  cbn [forallb]. intros [Hb Hbs]%andb_prop.
  cbn [Utf8.scan map]. rewrite Hb. f_equal. by apply IH.
Qed.

Lemma ascii_of_printable (bs : bytes) :
  forallb printable bs = true ->
  forallb (fun b => Byte.to_N b <? 0x80) bs = true.
Proof.
  induction bs as [|b bs IH]; [reflexivity|]. cbn [forallb].
  intros [Hb Hbs]%andb_prop. by rewrite (printable_ascii _ Hb), IH.
Qed.

Lemma decode_ignore_ascii (bs : bytes) :
  forallb (fun b => Byte.to_N b <? 0x80) bs = true ->
  Utf8.decode_ignore bs = text_of bs.
Proof.
  intros H. unfold Utf8.decode_ignore, text_of. rewrite (scan_ascii _ H).
  clear H. induction bs as [|b bs IH]; [reflexivity|].
  cbn. by rewrite <- IH.
Qed.

Lemma decode_ascii (bs : bytes) :
  forallb (fun b => Byte.to_N b <? 0x80) bs = true ->
  Utf8.decode bs = Some (text_of bs).
Proof.
  intros H. unfold Utf8.decode.
  pose proof (decode_ignore_ascii _ H) as Hd. unfold Utf8.decode_ignore in Hd.
  rewrite Hd. rewrite (scan_ascii _ H).
  replace (forallb _ (map _ bs)) with true; [reflexivity|].
  symmetry. clear. induction bs as [|b bs IH]; [reflexivity|]. exact IH.
Qed.

Lemma word_of_printable (bs : bytes) :
  bs <> [] -> forallb printable bs = true -> word (text_of bs).
Proof.
  intros Hne H. split; [by destruct bs|].
  induction bs as [|b bs IH]; [done|].
  cbn [forallb] in H. apply andb_prop in H as [Hb Hbs].
  cbn [text_of map forallb]. rewrite (printable_not_space _ Hb). cbn [negb andb].
  destruct bs as [|b' bs']; [reflexivity|]. by apply IH.
Qed.

Lemma lstrip_starts (c : N) (s : list N) :
  Str.isspace c = false -> Str.lstrip (c :: s) = c :: s.
Proof. intros H. cbn [Str.lstrip]. by rewrite H. Qed.

(** A text that neither starts nor ends with white space is its own
    [strip]. *)
Lemma strip_between (c d : N) (s : list N) :
  Str.isspace c = false -> Str.isspace d = false ->
  Str.strip (c :: s ++ [d]) = c :: s ++ [d].
Proof.
  intros Hc Hd. unfold Str.strip, Str.rstrip. rewrite (lstrip_starts _ _ Hc).
  change (c :: s ++ [d]) with ((c :: s) ++ [d]). rewrite rev_app_distr.
  cbn [rev app]. rewrite (lstrip_starts _ _ Hd).
  change (d :: rev s ++ [c]) with ([d] ++ rev (c :: s)).
  by rewrite rev_app_distr, rev_involutive.
Qed.

Lemma strip_one (c : N) : Str.isspace c = false -> Str.strip [c] = [c].
Proof.
  intros Hc. unfold Str.strip, Str.rstrip. rewrite (lstrip_starts _ _ Hc).
  cbn [rev app]. by rewrite (lstrip_starts _ _ Hc).
Qed.

Lemma word_first (w : list N) :
  word w -> exists c r, w = c :: r /\ Str.isspace c = false.
Proof.
  intros [Hne H]. destruct w as [|c r]; [done|]. exists c, r.
  cbn [forallb] in H. apply andb_prop in H as [Hc _].
  split; [reflexivity|]. by destruct (Str.isspace c).
Qed.

Lemma word_last (w : list N) :
  word w -> exists r d, w = r ++ [d] /\ Str.isspace d = false.
Proof.
  intros [Hne H]. destruct w as [|d r _] using rev_ind; [done|].
  exists r, d. split; [reflexivity|].
  rewrite forallb_app in H. apply andb_prop in H as [_ Hd].
  cbn in Hd. by destruct (Str.isspace d).
Qed.

(** A text that starts with a word and ends with a word. *)
Lemma strip_words (w1 w2 mid : list N) :
  word w1 -> word w2 -> Str.strip (w1 ++ mid ++ w2) = w1 ++ mid ++ w2.
Proof.
  intros (c & r & -> & Hc)%word_first (r' & d & -> & Hd)%word_last.
  replace ((c :: r) ++ mid ++ r' ++ [d]) with (c :: (r ++ mid ++ r') ++ [d])
    by (cbn; by rewrite <- !app_assoc).
  by apply strip_between.
Qed.

Lemma strip_word (w : list N) : word w -> Str.strip w = w.
Proof.
  intros Hw. destruct (word_first _ Hw) as (c & r & -> & Hc).
  destruct r as [|c' r'] using rev_ind; [by apply strip_one|].
  destruct (word_last _ Hw) as (r2 & d & E & Hd).
  change (c :: r' ++ [c']) with ((c :: r') ++ [c']) in E.
  apply app_inj_tail in E as [_ ->]. by apply strip_between.
Qed.

Lemma split_from_word (w cur s : list N) :
  forallb (fun c => negb (Str.isspace c)) w = true ->
  Str.split_from cur (w ++ s) = Str.split_from (rev w ++ cur) s.
Proof.
  revert cur. induction w as [|c w IH]; intros cur H; [reflexivity|].
  cbn [forallb] in H. apply andb_prop in H as [Hc Hw].
  cbn [app Str.split_from]. destruct (Str.isspace c); [discriminate|].
  rewrite IH by exact Hw. cbn [rev]. by rewrite <- app_assoc.
Qed.

Lemma py_space : py " " = [32].
Proof. vm_compute. reflexivity. Qed.

(** Words joined by single spaces split into these words. *)
Lemma split_join (words : list (list N)) :
  Forall word words -> Str.split (Str.join (py " ") words) = words.
Proof.
  rewrite py_space. unfold Str.split.
  induction words as [|w ws IH]; intros H; [reflexivity|].
  apply Forall_cons in H as [[Hne Hw] Hws].
  destruct ws as [|y r].
  - cbn [Str.join]. rewrite <- (app_nil_r w) at 1.
    rewrite split_from_word by exact Hw.
    rewrite app_nil_r. cbn [Str.split_from].
    destruct (rev w) eqn:E; [|rewrite <- E, rev_involutive; reflexivity].
    apply (f_equal (@rev N)) in E. rewrite rev_involutive in E. done.
  - change (Str.join [32] (w :: y :: r)) with (w ++ [32] ++ Str.join [32] (y :: r)).
    rewrite split_from_word by exact Hw. rewrite app_nil_r.
    cbn [app Str.split_from].
    replace (Str.isspace 32) with true by reflexivity.
    destruct (rev w) eqn:E.
    + apply (f_equal (@rev N)) in E. rewrite rev_involutive in E. done.
    + rewrite <- E, rev_involutive. f_equal. by apply IH.
Qed.



Lemma strip_join (w : list N) (ws : list (list N)) :
  Forall word (w :: ws) ->
  Str.strip (Str.join (py " ") (w :: ws)) = Str.join (py " ") (w :: ws).
Proof.
  rewrite py_space. intros H. apply Forall_cons in H as [Hw Hws].
  destruct ws as [|y r] using rev_ind; [by apply strip_word|].
  clear IHr. apply Forall_app in Hws as [Hr Hy].
  apply Forall_cons in Hy as [Hy _].
  assert (E : exists mid, Str.join [32] (w :: r ++ [y]) = w ++ mid ++ y).
  { clear Hw Hr Hy. revert w. induction r as [|z r IH]; intros w.
    - exists [32]. reflexivity.
    - destruct (IH z) as [mid E]. exists ([32] ++ z ++ mid).
      change (Str.join [32] (w :: (z :: r) ++ [y]))
        with (w ++ [32] ++ Str.join [32] (z :: r ++ [y])).
      rewrite E. by rewrite <- !app_assoc. }
  destruct E as [mid ->]. by apply strip_words.
Qed.

End TextFacts.

(* --------------------------------------------------------------------- *)
(** *** The datagram file receiver (pi.py, pi2.py) *)

Section FileReceiver.

Lemma file_receiver_unnamed (os : Os) (data : bytes) (fs : FileSystem) :
  packet_name data = [] ->
  file_receiver os data fs = (py "ERROR:无效文件名", fs).
Proof.
  intros H. unfold file_receiver. rewrite H. vm_compute. reflexivity.
Qed.

Lemma file_receiver_named (os : Os) (data : bytes) (fs : FileSystem) :
  packet_name data <> [] ->
  file_receiver os data fs
  = match open_wb os fs (os_path_join FILE_SAVE_PATH (packet_name data)) with
    | Raise e => (py "ERROR:" ++ exn_str e, fs)
    | Ok key =>
      match write_error os key (drop 100 data) with
      | Some (msg, k) =>
        (py "ERROR:" ++ msg, set_file key (take k (drop 100 data)) fs)
      | None => (py "FILE_SAVED", set_file key (drop 100 data) fs)
      end
    end.
Proof.
  intros H. unfold file_receiver.
  destruct (packet_name data) as [|c name]; [done|reflexivity].
Qed.

(** The name field is read up to the first NUL. *)
Lemma before_nul_field (field rest : bytes) :
  forallb (fun b => negb (Byte.eqb b x00)) field = true ->
  before_nul (field ++ x00 :: rest) = field /\ before_nul field = field.
Proof.
  induction field as [|b field IH]; [done|].
  cbn [forallb]. intros [Hb Hf]%andb_prop.
  cbn [app before_nul]. destruct (Byte.eqb b x00); [discriminate|].
  destruct (IH Hf) as [-> ->]. done.
Qed.

Lemma lstrip_spaces (i : nat) (s : list N) :
  Str.lstrip (repeat 32 i ++ s) = Str.lstrip s.
Proof. induction i as [|i IH]; [reflexivity|exact IH]. Qed.

Lemma rev_spaces (j : nat) : rev (repeat 32 j) = repeat 32 j.
Proof.
  induction j as [|j IH]; [reflexivity|].
  cbn [repeat rev]. rewrite IH. symmetry. apply repeat_cons.
Qed.

(** Spaces around a word, or spaces alone, are stripped. *)
Lemma strip_padded (i j : nat) (s : list N) :
  s = [] \/ word s ->
  Str.strip (repeat 32 i ++ s ++ repeat 32 j) = s.
Proof.
  intros Hs. unfold Str.strip, Str.rstrip. rewrite lstrip_spaces.
  destruct Hs as [->|Hw].
  - cbn [app]. rewrite <- (app_nil_r (repeat 32 j)), lstrip_spaces.
    reflexivity.
  - destruct (word_first _ Hw) as (c & r & -> & Hc).
    cbn [app]. rewrite (lstrip_starts _ _ Hc).
    change (c :: r ++ repeat 32 j) with ((c :: r) ++ repeat 32 j).
    rewrite rev_app_distr, rev_spaces, lstrip_spaces.
    destruct (word_last _ Hw) as (r' & d & E & Hd). rewrite E.
    rewrite rev_app_distr. cbn [rev app]. rewrite (lstrip_starts _ _ Hd).
    change (d :: rev r') with ([d] ++ rev r').
    by rewrite rev_app_distr, rev_involutive.
Qed.

(** The name of a frame: printable bytes, possibly between spaces, ended
    by a NUL or filling the 100 bytes. *)
Lemma frame_name (data nm rest : bytes) (i j : nat) :
  forallb printable nm = true ->
  let field := repeat x20 i ++ nm ++ repeat x20 j in
  (data = field ++ x00 :: rest /\ (length field < 100)%nat)
  \/ (data = field ++ rest /\ length field = 100%nat) ->
  packet_name data = text_of nm.
Proof.
  intros Hp field Hdata. unfold packet_name.
  assert (Hnul : forallb (fun b => negb (Byte.eqb b x00)) field = true).
  { unfold field. rewrite !forallb_app.
    assert (Hr : forall k, forallb (fun b => negb (Byte.eqb b x00)) (repeat x20 k)
                           = true).
    { intros k. induction k as [|k IH]; [reflexivity|exact IH]. }
    rewrite !Hr. cbn [andb]. rewrite andb_true_r.
    clear -Hp. induction nm as [|b nm IH]; [reflexivity|].
    cbn [forallb] in *. apply andb_prop in Hp as [Hb Hnm].
    by rewrite (printable_not_nul _ Hb), IH. }
  assert (Hb : before_nul (take 100 data) = field).
  { destruct Hdata as [[-> Hlen]|[-> Hlen]].
    - rewrite take_app, (take_ge field) by lia.
      destruct (100 - length field)%nat as [|k] eqn:Hk; [lia|].
      cbn [take]. by apply before_nul_field.
    - rewrite take_app, Hlen, Nat.sub_diag, take_0, app_nil_r.
      rewrite take_ge by lia. by apply (before_nul_field field []). }
  assert (Hascii : forallb (fun b => Byte.to_N b <? 0x80) field = true).
  { unfold field. rewrite !forallb_app.
    assert (Hr : forall k, forallb (fun b => Byte.to_N b <? 0x80) (repeat x20 k)
                           = true).
    { intros k. induction k as [|k IH]; [reflexivity|exact IH]. }
    by rewrite !Hr, (ascii_of_printable _ Hp). }
  rewrite Hb, decode_ignore_ascii by exact Hascii.
  unfold field, text_of. rewrite !map_app, !map_repeat.
  change (Byte.to_N x20) with 32. apply strip_padded.
  destruct nm as [|b nm]; [by left|right].
  by apply word_of_printable.
Qed.

(** A name without a slash is one component. *)
Lemma split_slash_from_plain (cur name : list N) :
  forallb (fun c => negb (c =? 47)) name = true ->
  split_slash_from cur name = [rev cur ++ name].
Proof.
  revert cur. induction name as [|c name IH]; intros cur H.
  - cbn. by rewrite app_nil_r.
  - cbn [forallb] in H. apply andb_prop in H as [Hc Hn].
    cbn [split_slash_from]. destruct (c =? 47); [discriminate|].
    rewrite IH by exact Hn. cbn [rev]. by rewrite <- app_assoc.
Qed.

Lemma is_dir_elem (fs : FileSystem) (key : list (list N)) :
  key ∈ dirs fs -> is_dir fs key = true.
Proof.
  intros H. unfold is_dir. rewrite (bool_decide_eq_true_2 _ H). apply orb_true_r.
Qed.

Lemma is_dir_not_elem (fs : FileSystem) (key : list (list N)) :
  key <> [] -> key ∉ dirs fs -> is_dir fs key = false.
Proof.
  intros Hne H. unfold is_dir.
  by rewrite (bool_decide_eq_false_2 _ Hne), (bool_decide_eq_false_2 _ H).
Qed.

(** The steps of the walk. *)
Lemma locate_skip (fs : FileSystem) (cur : list (list N)) (c : list N)
    (rest : list (list N)) :
  Str.eqb c [] || Str.eqb c (py ".") = true ->
  locate fs cur (c :: rest) = locate fs cur rest.
Proof. intros H. cbn [locate]. by rewrite H. Qed.

Lemma locate_up (fs : FileSystem) (cur rest : list (list N)) :
  locate fs cur (py ".." :: rest) = locate fs (removelast cur) rest.
Proof.
  cbn [locate].
  replace (Str.eqb (py "..") [] || Str.eqb (py "..") (py ".")) with false
    by (vm_compute; reflexivity).
  replace (Str.eqb (py "..") (py "..")) with true by (vm_compute; reflexivity).
  reflexivity.
Qed.

Lemma locate_down (fs : FileSystem) (cur : list (list N)) (c d : list N)
    (rest : list (list N)) :
  names_entry c -> is_dir fs (cur ++ [c]) = true ->
  locate fs cur (c :: d :: rest) = locate fs (cur ++ [c]) (d :: rest).
Proof.
  intros (H1 & H2 & H3) Hd. cbn [locate]. rewrite H1, H2, H3. cbn [orb].
  by rewrite Hd.
Qed.

Lemma locate_last (fs : FileSystem) (cur : list (list N)) (c : list N) :
  names_entry c -> is_dir fs cur = true ->
  locate fs cur [c] = Some (cur ++ [c]).
Proof.
  intros (H1 & H2 & H3) Hd. cbn [locate]. rewrite H1, H2, H3. cbn [orb].
  by rewrite Hd.
Qed.

Lemma text_of_inj (a b : bytes) : text_of a = text_of b -> a = b.
Proof.
  revert b. induction a as [|x a IH]; intros [|y b]; try done.
  cbn [text_of map]. intros [= Hxy Hab].
  f_equal; [|by apply IH].
  apply (f_equal Byte.of_N) in Hxy. rewrite !Byte.of_to_N in Hxy. by injection Hxy.
Qed.

Lemma names_entry_of_bytes (nm : bytes) :
  nm <> [] -> nm <> [x2e] -> nm <> [x2e; x2e] -> names_entry (text_of nm).
Proof.
  intros H0 H1 H2. split; [|split]; apply Str_eqb_neq; intros E.
  - by destruct nm.
  - apply H1, text_of_inj. rewrite E. vm_compute. reflexivity.
  - apply H2, text_of_inj. rewrite E. vm_compute. reflexivity.
Qed.

Lemma no_slash_of_bytes (nm : bytes) :
  forallb (fun b => negb (Byte.eqb b x2f)) nm = true ->
  forallb (fun c => negb (c =? 47)) (text_of nm) = true.
Proof.
  unfold text_of. induction nm as [|b nm IH]; [done|]. cbn [forallb map].
  intros [Hb Hnm]%andb_prop. rewrite (IH Hnm), andb_true_r.
  destruct (N.eqb_spec (Byte.to_N b) 47) as [E|]; [|reflexivity].
  apply (f_equal Byte.of_N) in E. rewrite Byte.of_to_N in E.
  injection E as ->. discriminate Hb.
Qed.

Lemma os_path_join_relative (c : N) (r : list N) :
  (c =? 47) = false ->
  os_path_join FILE_SAVE_PATH (c :: r) = FILE_SAVE_PATH ++ c :: r.
Proof.
  intros H. unfold os_path_join.
  replace (py "/") with [47] by (vm_compute; reflexivity).
  cbn [Str.startswith]. rewrite N.eqb_sym, H. cbn [andb].
  vm_compute. reflexivity.
Qed.

(** A name that is one component lands in the save directory, when that
    directory and the directories above it exist. *)
Lemma locate_in_save_dir (fs : FileSystem) (name : list N) :
  names_entry name ->
  forallb (fun c => negb (c =? 47)) name = true ->
  [py "home"] ∈ dirs fs ->
  [py "home"; py "ppt5517"] ∈ dirs fs ->
  [py "home"; py "ppt5517"; py "received_files"] ∈ dirs fs ->
  locate fs [] (split_slash_from [] (os_path_join FILE_SAVE_PATH name))
  = Some [py "home"; py "ppt5517"; py "received_files"; name].
Proof.
  intros Hname Hslash H1 H2 H3.
  destruct name as [|c r]; [by destruct Hname as [? _]|].
  assert (Hc : (c =? 47) = false).
  { cbn [forallb] in Hslash. apply andb_prop in Hslash as [Hc _].
    by destruct (c =? 47). }
  rewrite (os_path_join_relative _ _ Hc).
  replace (split_slash_from [] (FILE_SAVE_PATH ++ c :: r))
    with ([] :: py "home" :: py "ppt5517" :: py "received_files"
          :: split_slash_from [] (c :: r))
    by (vm_compute; reflexivity).
  rewrite (split_slash_from_plain [] _ Hslash). cbn [rev app].
  rewrite locate_skip by reflexivity.
  assert (He : forall k : string,
             k = "home"%string \/ k = "ppt5517"%string
             \/ k = "received_files"%string -> names_entry (py k)).
  { intros k [-> | [-> | ->]]; (split; [|split]); vm_compute; reflexivity. }
  rewrite (locate_down fs [] (py "home")); [|apply He; auto|by apply is_dir_elem].
  rewrite (locate_down fs [py "home"] (py "ppt5517"));
    [|apply He; auto|by apply is_dir_elem].
  rewrite (locate_down fs [py "home"; py "ppt5517"] (py "received_files"));
    [|apply He; auto|by apply is_dir_elem].
  rewrite locate_last; [reflexivity|exact Hname|by apply is_dir_elem].
Qed.

(** C6 (counterexample). A datagram with a name that is not empty is not
    always answered with FILE_SAVED: the name [audio_recordings] is that
    of the directory made when the module is loaded, [open] raises, the
    reply is an ERROR message and nothing is stored. *)
Lemma file_receiver_directory_name_not_saved :
  ~ (forall (os : Os) (data : bytes) (fs : FileSystem),
       packet_name data <> [] ->
       (file_receiver os data fs).1 = py "FILE_SAVED"
       /\ exists key, files (file_receiver os data fs).2 !! key
                      = Some (drop 100 data)).
Proof.
  intros H.
  destruct (H bench_os (name_field "audio_recordings" ++ datagram "0123456789")
              loaded_fs) as [Hreply _].
  - vm_compute. discriminate.
  - vm_compute in Hreply. discriminate Hreply.
Qed.

Example file_receiver_directory_name :
  (file_receiver bench_os (name_field "audio_recordings" ++ datagram "0123456789")
     loaded_fs).1
  = py "ERROR:[Errno 21] Is a directory: '/home/ppt5517/received_files/audio_recordings'".
Proof. vm_compute. reflexivity. Qed.

(** C6 (amended). For every datagram on the upload port, with the name
    its first 100 bytes carry up to the first NUL: an empty name is
    answered with [ERROR:无效文件名] and nothing is written; when [open]
    raises for the joined path, the reply is [ERROR:] with the text of
    the error and nothing is written; when the file is opened and the
    write goes through, the reply is [FILE_SAVED], the file holds the
    bytes after the first 100 and nothing else changes; when the write
    raises, the reply is [ERROR:] with its text and the file holds the
    bytes written so far. For the frame of a sender -- a name of
    printable bytes, possibly between spaces, ended by a NUL or filling
    the 100 bytes -- the name is the text of these bytes; and when it is
    not empty, has no slash and is not [.] or [..], the save directory
    exists, the name is not that of a directory and the system refuses
    nothing, the bytes after the first 100 are stored as the file of
    that name in the save directory. *)
Theorem file_receiver_stores_payload :
  forall (os : Os) (data : bytes) (fs : FileSystem),
    let name := packet_name data in
    let path := os_path_join FILE_SAVE_PATH name in
    let reply := (file_receiver os data fs).1 in
    let fs' := (file_receiver os data fs).2 in
    (name = [] -> reply = py "ERROR:无效文件名" /\ fs' = fs)
    /\ (name <> [] ->
        forall e : exn,
          open_wb os fs path = Raise e ->
          reply = py "ERROR:" ++ exn_str e /\ fs' = fs)
    /\ (name <> [] ->
        forall key : list (list N),
          open_wb os fs path = Ok key ->
          (write_error os key (drop 100 data) = None ->
           reply = py "FILE_SAVED"
           /\ files fs' !! key = Some (drop 100 data)
           /\ (forall other, other <> key -> files fs' !! other = files fs !! other)
           /\ dirs fs' = dirs fs)
          /\ (forall msg k,
                write_error os key (drop 100 data) = Some (msg, k) ->
                reply = py "ERROR:" ++ msg
                /\ files fs' !! key = Some (take k (drop 100 data))))
    /\ (forall (nm rest : bytes) (i j : nat),
          forallb printable nm = true ->
          let field := repeat x20 i ++ nm ++ repeat x20 j in
          (data = field ++ x00 :: rest /\ (length field < 100)%nat)
          \/ (data = field ++ rest /\ length field = 100%nat) ->
          name = text_of nm
          /\ (nm <> [] ->
              forallb (fun b => negb (Byte.eqb b x2f)) nm = true ->
              nm <> [x2e] -> nm <> [x2e; x2e] ->
              let key := [py "home"; py "ppt5517"; py "received_files";
                          text_of nm] in
              [py "home"] ∈ dirs fs ->
              [py "home"; py "ppt5517"] ∈ dirs fs ->
              [py "home"; py "ppt5517"; py "received_files"] ∈ dirs fs ->
              key ∉ dirs fs ->
              open_denied os key = false ->
              write_error os key (drop 100 data) = None ->
              reply = py "FILE_SAVED"
              /\ files fs' !! key = Some (drop 100 data)
              /\ (forall other, other <> key ->
                    files fs' !! other = files fs !! other))).
Proof.
  intros os data fs name path reply fs'.
  assert (Hsaved : forall key,
            name <> [] -> open_wb os fs path = Ok key ->
            write_error os key (drop 100 data) = None ->
            reply = py "FILE_SAVED"
            /\ files fs' !! key = Some (drop 100 data)
            /\ (forall other, other <> key -> files fs' !! other = files fs !! other)
            /\ dirs fs' = dirs fs).
  { intros key Hne Hopen Hw. unfold reply, fs'.
    rewrite (file_receiver_named _ _ _ Hne). fold name. fold path.
    rewrite Hopen, Hw. cbn [fst snd set_file files dirs].
    split; [reflexivity|]. split; [apply lookup_insert_eq|].
    split; [|reflexivity]. intros other Hother. by apply lookup_insert_ne. }
  split; [|split; [|split]].
  - intros Hname. unfold reply, fs'.
    rewrite (file_receiver_unnamed _ _ _ Hname). auto.
  - intros Hne e Hopen. unfold reply, fs'.
    rewrite (file_receiver_named _ _ _ Hne). fold name. fold path.
    rewrite Hopen. auto.
  - intros Hne key Hopen. split; [by apply Hsaved|].
    intros msg k Hw. unfold reply, fs'.
    rewrite (file_receiver_named _ _ _ Hne). fold name. fold path.
    rewrite Hopen, Hw. cbn [fst snd set_file files].
    split; [reflexivity|apply lookup_insert_eq].
  - intros nm rest i j Hp field Hframe.
    assert (Hname : name = text_of nm) by (by apply (frame_name data nm rest i j)).
    split; [exact Hname|].
    intros Hnm Hslash Hdot Hdots key H1 H2 H3 Hnd Hden Hw.
    assert (Hne : name <> []) by (rewrite Hname; by destruct nm).
    assert (Hopen : open_wb os fs path = Ok key).
    { unfold open_wb, path. rewrite Hname.
      rewrite locate_in_save_dir;
        [|by apply names_entry_of_bytes|by apply no_slash_of_bytes|done..].
      fold key. rewrite is_dir_not_elem by done. by rewrite Hden. }
    destruct (Hsaved key Hne Hopen Hw) as (Hr & Hf & Ho & _). auto.
Qed.

(** The example of the specification: the name [a.jpg] and ten bytes of
    payload give [FILE_SAVED] and a ten-byte file [a.jpg]. *)
Lemma file_receiver_stores_payload_witness :
  let out := file_receiver bench_os (name_field "a.jpg" ++ datagram "0123456789")
               loaded_fs in
  out.1 = py "FILE_SAVED"
  /\ files out.2 !! [py "home"; py "ppt5517"; py "received_files"; py "a.jpg"]
     = Some (datagram "0123456789").
Proof.
  pose proof (file_receiver_stores_payload bench_os
                (name_field "a.jpg" ++ datagram "0123456789") loaded_fs) as H.
  cbv zeta in H. destruct H as (_ & _ & _ & H).
  destruct (H (datagram "a.jpg") (repeat x00 94 ++ datagram "0123456789")
              0%nat 0%nat) as [_ Hsave].
  - vm_compute. reflexivity.
  - left. split; [vm_compute; reflexivity | vm_compute; lia].
  - destruct Hsave as (Hr & Hf & _).
    + vm_compute. discriminate.
    + vm_compute. reflexivity.
    + vm_compute. discriminate.
    + vm_compute. discriminate.
    + apply (bool_decide_unpack _). vm_compute. exact I.
    + apply (bool_decide_unpack _). vm_compute. exact I.
    + apply (bool_decide_unpack _). vm_compute. exact I.
    + intros Hin. apply (bool_decide_pack _) in Hin. vm_compute in Hin. exact Hin.
    + reflexivity.
    + reflexivity.
    + cbv zeta. split; [exact Hr|].
      replace (datagram "0123456789")
        with (drop 100 (name_field "a.jpg" ++ datagram "0123456789"))
        by (vm_compute; reflexivity).
      exact Hf.
Defined.

(** A name field of spaces is an empty name. *)
Lemma file_receiver_blank_name (os : Os) (rest : bytes) (fs : FileSystem)
    (k : nat) :
  (k < 100)%nat ->
  file_receiver os (repeat x20 k ++ x00 :: rest) fs = (py "ERROR:无效文件名", fs).
Proof.
  intros Hk. apply file_receiver_unnamed.
  rewrite (frame_name _ [] rest k 0); [reflexivity|reflexivity|].
  left. cbn [app]. rewrite app_nil_r, repeat_length. auto.
Qed.

(** An empty name field: error reply, nothing stored. *)
Lemma file_receiver_empty_name (os : Os) (payload : bytes) (fs : FileSystem) :
  file_receiver os (repeat x00 100 ++ payload) fs = (py "ERROR:无效文件名", fs).
Proof. apply file_receiver_unnamed. vm_compute. reflexivity. Qed.

(** Another spelling of the name writes to the same file. *)
Example file_receiver_same_file :
  files (file_receiver bench_os (name_field "./a.jpg" ++ datagram "0123456789")
           loaded_fs).2
    !! [py "home"; py "ppt5517"; py "received_files"; py "a.jpg"]
  = Some (datagram "0123456789").
Proof. vm_compute. reflexivity. Qed.

(** C10. The decoded name is joined onto the save directory as it is:
    the name [../x] is not empty, the joined path is not under
    [FILE_SAVE_PATH], and whenever the directories exist and the system
    refuses nothing the reply is [FILE_SAVED] and the payload is in the
    file [x] of the directory above the save directory. *)
Theorem file_receiver_writes_outside_save_dir :
  exists (data : bytes) (path : list N),
    packet_name data = py "../x"
    /\ path = os_path_join FILE_SAVE_PATH (packet_name data)
    /\ is_under FILE_SAVE_PATH path = false
    /\ normpath_components path = [py "home"; py "ppt5517"; py "x"]
    /\ forall (os : Os) (fs : FileSystem),
         [py "home"] ∈ dirs fs ->
         [py "home"; py "ppt5517"] ∈ dirs fs ->
         [py "home"; py "ppt5517"; py "received_files"] ∈ dirs fs ->
         [py "home"; py "ppt5517"; py "x"] ∉ dirs fs ->
         open_denied os [py "home"; py "ppt5517"; py "x"] = false ->
         write_error os [py "home"; py "ppt5517"; py "x"] (drop 100 data) = None ->
         (file_receiver os data fs).1 = py "FILE_SAVED"
         /\ files (file_receiver os data fs).2 !! [py "home"; py "ppt5517"; py "x"]
            = Some (drop 100 data).
Proof.
  exists (name_field "../x" ++ datagram "payload"),
         (py "/home/ppt5517/received_files/../x").
  assert (Hname : packet_name (name_field "../x" ++ datagram "payload")
                  = py "../x") by (vm_compute; reflexivity).
  assert (Hne : packet_name (name_field "../x" ++ datagram "payload") <> []).
  { rewrite Hname. vm_compute. discriminate. }
  split; [exact Hname|].
  split; [vm_compute; reflexivity|].
  split; [vm_compute; reflexivity|].
  split; [vm_compute; reflexivity|].
  intros os fs H1 H2 H3 Hx Hden Hw.
  rewrite (file_receiver_named _ _ _ Hne), Hname.
  assert (Hopen : open_wb os fs (os_path_join FILE_SAVE_PATH (py "../x"))
                  = Ok [py "home"; py "ppt5517"; py "x"]).
  { unfold open_wb.
    replace (split_slash_from [] (os_path_join FILE_SAVE_PATH (py "../x")))
      with [[]; py "home"; py "ppt5517"; py "received_files"; py ".."; py "x"]
      by (vm_compute; reflexivity).
    assert (He : forall k : string,
               k = "home"%string \/ k = "ppt5517"%string
               \/ k = "received_files"%string \/ k = "x"%string
               -> names_entry (py k)).
    { intros k [-> | [-> | [-> | ->]]]; (split; [|split]); vm_compute; reflexivity. }
    rewrite locate_skip by reflexivity.
    rewrite (locate_down fs [] (py "home")); [|apply He; auto|by apply is_dir_elem].
    rewrite (locate_down fs [py "home"] (py "ppt5517"));
      [|apply He; auto|by apply is_dir_elem].
    rewrite (locate_down fs [py "home"; py "ppt5517"] (py "received_files"));
      [|apply He; auto|by apply is_dir_elem].
    rewrite locate_up. cbn [app removelast].
    rewrite locate_last; [|apply He; auto 6|by apply is_dir_elem].
    cbn [app]. rewrite is_dir_not_elem by done. by rewrite Hden. }
  rewrite Hopen, Hw. cbn [fst snd set_file files].
  split; [reflexivity|apply lookup_insert_eq].
Qed.

Lemma file_receiver_writes_outside_save_dir_witness :
  exists data : bytes,
    packet_name data = py "../x"
    /\ (file_receiver bench_os data loaded_fs).1 = py "FILE_SAVED".
Proof.
  destruct file_receiver_writes_outside_save_dir
    as (data & path & Hname & _ & _ & _ & H).
  exists data. split; [exact Hname|].
  apply (H bench_os loaded_fs).
  - apply (bool_decide_unpack _). vm_compute. exact I.
  - apply (bool_decide_unpack _). vm_compute. exact I.
  - apply (bool_decide_unpack _). vm_compute. exact I.
  - intros Hin. apply (bool_decide_pack _) in Hin. vm_compute in Hin. exact Hin.
  - reflexivity.
  - reflexivity.
Defined.

(** An absolute name replaces the save directory altogether. *)
Example file_receiver_absolute_name :
  files (file_receiver bench_os (name_field "/home/x" ++ datagram "0123456789")
           loaded_fs).2 !! [py "home"; py "x"]
  = Some (datagram "0123456789").
Proof. vm_compute. reflexivity. Qed.

(** A name without a separator stays in the save directory. *)
Example a_jpg_is_under_save_dir :
  is_under FILE_SAVE_PATH (os_path_join FILE_SAVE_PATH (py "a.jpg")) = true.
Proof. vm_compute. reflexivity. Qed.

End FileReceiver.

(* --------------------------------------------------------------------- *)
(** *** Stopping background tasks (pi_final.py) *)

Section Stopping.
Import PiFinal.

(** C7 (evaluation at the failing input). [continuous_capture stop] is
    answered with SUCCESS whatever the state, so also when no capture is
    running, as in the initial state; the flag is false afterwards. *)
Theorem stop_continuous_capture_never_fails :
  forall (env : Env) (st : State),
    udp_command_server env (datagram "continuous_capture stop") st
    = (Ok (py "0x14BD0003:SUCCESS:已停止连续拍摄"), set_continuous_capture false st)
    /\ continuous_capture initial_state = false
    /\ udp_command_server env (datagram "continuous_capture stop") initial_state
       = (Ok (py "0x14BD0003:SUCCESS:已停止连续拍摄"), initial_state).
Proof.
  intros env st. split; [|split]; vm_compute; reflexivity.
Qed.

(** The two sibling handlers do tell a task that is not running. *)
Lemma stop_audio_recording_not_running (env : Env) (st : State) :
  is_audio_recording st = false ->
  stop_audio_recording env st = (Ok (false, py "没有正在进行的录音"), st).
Proof.
  intros H. unfold stop_audio_recording, bind, get. rewrite H.
  vm_compute. reflexivity.
Qed.

Lemma hdmi_stop_video_not_running (env : Env) (st : State) :
  hdmi_player_process st = None ->
  hdmi_stop_video env st = (Ok (false, py "没有正在播放的视频"), st).
Proof.
  intros H. unfold hdmi_stop_video, try_except, bind, get. rewrite H.
  vm_compute. reflexivity.
Qed.

(** Stopping a running task clears its flag, whatever the ports do. *)
Lemma stop_audio_recording_clears_flag (env : Env) (st : State) :
  is_audio_recording st = true ->
  is_audio_recording (stop_audio_recording env st).2 = false.
Proof.
  intros H. unfold stop_audio_recording, try_except, bind, get, port, modify.
  rewrite H. cbn [negb].
  repeat match goal with
         | |- context [raises env ?c] => destruct (raises env c); cbn
         end; reflexivity.
Qed.

Lemma hdmi_stop_video_clears_handle (env : Env) (st : State) (p : nat) :
  hdmi_player_process st = Some p ->
  raises env (Process_terminate p) = None ->
  hdmi_stop_video env st
  = (Ok (true, py "HDMI播放已停止"),
     set_hdmi_player_process None (log_call (Process_terminate p) st)).
Proof.
  intros H Hok. unfold hdmi_stop_video, try_except, bind, get, port, modify.
  rewrite H, Hok. vm_compute. reflexivity.
Qed.

End Stopping.

(* --------------------------------------------------------------------- *)
(** *** Datagrams that are not UTF-8 *)

Section Decoding.

(** C1 (evaluation at the failing input). In the two text variants
    [data.decode()] runs before the [try]: a datagram that is not UTF-8,
    such as the single byte [0xFF], ends the round with a
    [UnicodeDecodeError] that leaves the loop, and no response is sent. *)
Theorem text_servers_non_utf8_leaves_loop :
  forall (env : Env) (st : State) (data : bytes),
    Utf8.decode data = None ->
    Pi.handle_udp_command env data st
    = (Raise (Exn UnicodeDecodeError (decode_error env data)), st)
    /\ PiFinal.udp_command_server env data st
       = (Raise (Exn UnicodeDecodeError (decode_error env data)), st).
Proof.
  intros env st data H.
  unfold Pi.handle_udp_command, PiFinal.udp_command_server. rewrite H.
  split; exact eq_refl.
Qed.

Lemma text_servers_non_utf8_leaves_loop_witness :
  Pi.handle_udp_command bench_env [xff] initial_state
  = (Raise (Exn UnicodeDecodeError (decode_error bench_env [xff])), initial_state)
  /\ PiFinal.udp_command_server bench_env [xff] initial_state
     = (Raise (Exn UnicodeDecodeError (decode_error bench_env [xff])),
        initial_state).
Proof.
  apply (text_servers_non_utf8_leaves_loop bench_env initial_state [xff]).
  vm_compute. reflexivity.
Defined.

(** The binary variant decodes inside the [try]: every datagram gets a
    response. *)
Lemma try_except_all_returns {A} (body : M A) (handler : exn -> M A) (st : State) :
  (forall e st1, exists a st2, handler e st1 = (Ok a, st2)) ->
  exists a st', try_except body is_Exception handler st = (Ok a, st').
Proof.
  intros Hh. unfold try_except.
  destruct (body st) as [[a|e] st1]; [by eauto|].
  cbn. apply Hh.
Qed.

Lemma pi2_always_responds (env : Env) (data : bytes) (st : State) :
  exists response st', Pi2.handle_udp_command env data st = (Ok response, st').
Proof.
  unfold Pi2.handle_udp_command. apply try_except_all_returns.
  intros e st1. eexists _, _. reflexivity.
Qed.

Lemma pi2_short_frame (env : Env) (data : bytes) (st : State) :
  (length data < 4)%nat ->
  Pi2.handle_udp_command env data st = (Ok (py "ERROR:指令长度不足"), st).
Proof.
  intros H. unfold Pi2.handle_udp_command, Pi2.dispatch.
  replace (4 <=? length data)%nat with false
    by (symmetry; apply Nat.leb_gt; lia).
  vm_compute. reflexivity.
Qed.

Lemma pi2_unknown_primary (env : Env) (s1 s2 : byte) (payload : bytes) (st : State) :
  Pi2.handle_udp_command env (xff :: xff :: s1 :: s2 :: payload) st
  = (Ok (py "ERROR:未知指令 0xFFFF"), st).
Proof.
  unfold Pi2.handle_udp_command, Pi2.dispatch.
  cbn [length Nat.leb take drop].
  replace (Pi2.COMMANDS !! int_from_bytes [xff; xff]) with (@None (list N))
    by (vm_compute; reflexivity).
  vm_compute. reflexivity.
Qed.

Lemma pi2_non_utf8_payload (env : Env) (st : State) :
  Pi2.handle_udp_command env [x0a; x5f; x00; x01; xff] st
  = (Ok (py "ERROR:处理指令时出错 - " ++ decode_error env [xff]), st).
Proof. vm_compute. reflexivity. Qed.

End Decoding.

(* --------------------------------------------------------------------- *)
(** *** The interval of a continuous capture *)

Section Interval.

(** pi_final.py: the test [cmd_code == COMMAND_MAPPING['continuous_capture']]
    with an argument. *)
Lemma pifinal_dispatch_interval (env : Env) (w arg : str) (rest : list str) :
  PiFinal.dispatch env (PiFinal.code_of "continuous_capture") (w :: arg :: rest)
  = try_except
      (bind (py_float env arg) (fun interval =>
         PiFinal.start_continuous_capture env interval))
      is_ValueError (fun _ => ret (false, py "无效的间隔时间")).
Proof. vm_compute. reflexivity. Qed.

(** pi_final.py has no test on the sign of the interval: whatever number
    the argument parses to, the capture starts. *)
Lemma pifinal_any_interval_starts (env : Env) (st : State) (w arg : str)
    (rest : list str) (v : float) :
  float_of_str env arg = Some v ->
  continuous_capture st = false ->
  raises env (Thread_start capture_loop) = None ->
  PiFinal.dispatch env (PiFinal.code_of "continuous_capture") (w :: arg :: rest) st
  = (Ok (true, py "开始连续拍摄，间隔 " ++ float_repr env v ++ py " 秒"),
     log_call (Thread_start capture_loop)
       (set_continuous_capture true (set_capture_interval v st))).
Proof.
  intros Hv Hoff Hth. rewrite pifinal_dispatch_interval.
  unfold try_except, bind, py_float, PiFinal.start_continuous_capture,
    bind, get, modify, port, ret.
  rewrite Hv. cbn beta iota. rewrite Hoff. cbn beta iota.
  rewrite Hth. reflexivity.
Qed.

(** C5 (evaluation at the failing input). In pi_final.py the command
    [continuous_capture 0], sent while no capture runs, is answered with
    SUCCESS: the interval is stored as it parsed, the flag is set and the
    worker is started. *)
Theorem pifinal_zero_interval_accepted :
  forall (env : Env) (st : State) (v : float),
    float_of_str env (py "0") = Some v ->
    continuous_capture st = false ->
    raises env (Thread_start capture_loop) = None ->
    PiFinal.udp_command_server env (datagram "continuous_capture 0") st
    = (Ok (py "0x14BD0002:SUCCESS:开始连续拍摄，间隔 " ++ float_repr env v ++ py " 秒"),
       log_call (Thread_start capture_loop)
         (set_continuous_capture true (set_capture_interval v st))).
Proof.
  intros env st v Hv Hoff Hth.
  assert (Hsrv : PiFinal.udp_command_server env (datagram "continuous_capture 0") st
                 = PiFinal.respond env (PiFinal.code_of "continuous_capture")
                     (py "continuous_capture 0") st)
    by (vm_compute; reflexivity).
  rewrite Hsrv. unfold PiFinal.respond, try_except, bind.
  replace (Str.split (py "continuous_capture 0"))
    with [py "continuous_capture"; py "0"] by (vm_compute; reflexivity).
  rewrite (pifinal_any_interval_starts env st _ _ _ v Hv Hoff Hth).
  cbn beta iota. unfold ret. vm_compute. reflexivity.
Qed.

Lemma pifinal_zero_interval_accepted_witness :
  PiFinal.udp_command_server bench_env (datagram "continuous_capture 0")
    initial_state
  = (Ok (py "0x14BD0002:SUCCESS:开始连续拍摄，间隔 "
         ++ float_repr bench_env 0%float ++ py " 秒"),
     log_call (Thread_start capture_loop)
       (set_continuous_capture true (set_capture_interval 0%float initial_state))).
Proof.
  apply (pifinal_zero_interval_accepted bench_env initial_state 0%float);
    vm_compute; reflexivity.
Defined.

(** pi.py: the two rejections, with their two messages, and no start. *)
Lemma pi_interval_not_positive (env : Env) (st : State) (command w arg : str)
    (v : float) :
  Str.split command = [w; arg] ->
  Str.eqb arg (py "stop") = false ->
  float_of_str env arg = Some v ->
  (0 <? v)%float = false ->
  Pi.continuous_capture_command env command st
  = (Ok (py "ERROR:间隔时间必须大于0"), st).
Proof.
  intros Hsp Hstop Hv Hle. unfold Pi.continuous_capture_command.
  rewrite Hsp, Hstop. unfold try_except, bind, py_float. rewrite Hv.
  cbn beta iota. unfold ret at 1. cbn beta iota. rewrite Hle. reflexivity.
Qed.

Lemma pi_interval_not_a_number (env : Env) (st : State) (command w arg : str) :
  Str.split command = [w; arg] ->
  Str.eqb arg (py "stop") = false ->
  float_of_str env arg = None ->
  Pi.continuous_capture_command env command st
  = (Ok (py "ERROR:无效的间隔时间"), st).
Proof.
  intros Hsp Hstop Hv. unfold Pi.continuous_capture_command.
  rewrite Hsp, Hstop. unfold try_except, bind, py_float. rewrite Hv.
  reflexivity.
Qed.

Lemma pi_interval_messages_differ :
  py "ERROR:间隔时间必须大于0" <> py "ERROR:无效的间隔时间".
Proof. vm_compute. discriminate. Qed.

(** pi2.py: the same two rejections. *)
Lemma pi2_interval_not_positive (env : Env) (st : State) (payload : bytes)
    (text : str) (v : float) :
  payload <> [] ->
  Utf8.decode payload = Some text ->
  float_of_str env text = Some v ->
  (0 <? v)%float = false ->
  Pi2.start_continuous env payload st = (Ok (py "ERROR:间隔时间必须大于0"), st).
Proof.
  intros Hne Hdec Hv Hle. unfold Pi2.start_continuous.
  destruct payload as [|b payload]; [done|].
  unfold try_except, bind, Pi2.decode_payload, py_float.
  rewrite Hdec. unfold ret at 1. cbn beta iota. rewrite Hv.
  unfold ret at 1. cbn beta iota. rewrite Hle. reflexivity.
Qed.

Lemma pi2_interval_not_a_number (env : Env) (st : State) (payload : bytes)
    (text : str) :
  payload <> [] ->
  Utf8.decode payload = Some text ->
  float_of_str env text = None ->
  Pi2.start_continuous env payload st = (Ok (py "ERROR:无效的间隔时间"), st).
Proof.
  intros Hne Hdec Hv. unfold Pi2.start_continuous.
  destruct payload as [|b payload]; [done|].
  unfold try_except, bind, Pi2.decode_payload, py_float.
  rewrite Hdec. unfold ret at 1. cbn beta iota. rewrite Hv. reflexivity.
Qed.

End Interval.

(* --------------------------------------------------------------------- *)
(** *** Starting a task that is already running (pi_final.py) *)

Section Starting.
Import PiFinal.

(** C2 (counterexample). It is not so that a start command for a task
    whose handle is held is always answered with an error: [hdmi_play
    /v.mp4], sent while process 0 plays, is answered with SUCCESS. *)
Lemma hdmi_play_while_playing_not_rejected :
  ~ (forall (env : Env) (st : State) (data : bytes),
       hdmi_player_process st <> None ->
       data = datagram "hdmi_play /v.mp4" ->
       exists msg st',
         udp_command_server env data st
         = (Ok (py "0x22A10001:ERROR:" ++ msg), st')).
Proof.
  intros H.
  destruct (H bench_env playing_state (datagram "hdmi_play /v.mp4"))
    as (msg & st' & Heq); [vm_compute; discriminate | reflexivity |].
  vm_compute in Heq. discriminate Heq.
Qed.

Example hdmi_play_while_playing :
  udp_command_server bench_env (datagram "hdmi_play /v.mp4") playing_state
  = (Ok (py "0x22A10001:SUCCESS:正在HDMI播放: /v.mp4"),
     set_hdmi_player_process (Some 3%nat)
       (log_call (Popen [py "omxplayer"; py "--display=2"; py "--no-osd";
                         py "--aspect-mode=fill"; py "/v.mp4"])
          (log_call (time_sleep 1)
             (log_call (Process_terminate 0) playing_state)))).
Proof. vm_compute. reflexivity. Qed.

(** C2 (amended). In pi_final.py: a start of the continuous capture while
    its flag is set, and a start of the audio recording while its flag is
    set, return an error, change nothing and call no port, so no second
    worker is started; a start of the HDMI playback while a player is
    held terminates that player before the new one is spawned and then
    holds the new one only. *)
Theorem start_while_running :
  forall (env : Env) (st : State),
    (continuous_capture st = true ->
     forall interval : float,
       start_continuous_capture env interval st
       = (Ok (false, py "已经在连续拍摄模式"), st))
    /\ (is_audio_recording st = true ->
        start_audio_recording env st = (Ok (false, py "已经在录音中"), st))
    /\ (forall (p : nat) (filepath : str),
          hdmi_player_process st = Some p ->
          path_exists env filepath = true ->
          (forall c, raises env c = None) ->
          let argv := [py "omxplayer"; py "--display=" ++ HDMI_DISPLAY;
                       py "--no-osd"; py "--aspect-mode=fill"; filepath] in
          hdmi_play_video env filepath st
          = (Ok (true, py "正在HDMI播放: " ++ filepath),
             set_hdmi_player_process (Some (length (trace st) + 2)%nat)
               (log_call (Popen argv)
                  (log_call (time_sleep 1)
                     (log_call (Process_terminate p) st))))).
Proof.
  intros env st. split; [|split].
  - intros Hon interval.
    unfold start_continuous_capture, bind, get. rewrite Hon.
    vm_compute. reflexivity.
  - intros Hon. unfold start_audio_recording, bind, get. rewrite Hon.
    vm_compute. reflexivity.
  - intros p filepath Hp Hex Hok argv.
    unfold hdmi_play_video, try_except, bind, get, popen, port, modify, ret,
      bind, get.
    rewrite Hex. cbn [negb]. rewrite Hp. rewrite !Hok. cbn beta iota.
    cbn [trace log_call length app].
    rewrite length_app, length_app. cbn [length Nat.add].
    replace (length (trace st) + 1 + 1)%nat with (length (trace st) + 2)%nat by lia.
    reflexivity.
Qed.

Lemma start_while_running_witness :
  start_continuous_capture bench_env 2%float
    (set_continuous_capture true initial_state)
  = (Ok (false, py "已经在连续拍摄模式"), set_continuous_capture true initial_state).
Proof.
  exact (proj1 (start_while_running bench_env
                  (set_continuous_capture true initial_state))
           eq_refl 2%float).
Defined.

(** At the level of the datagram: both rejections carry the ERROR status. *)
Lemma capture_start_while_running_response (env : Env) (st : State) :
  continuous_capture st = true ->
  udp_command_server env (datagram "continuous_capture") st
  = (Ok (py "0x14BD0002:ERROR:已经在连续拍摄模式"), st).
Proof.
  intros Hon. destruct st as [cc ci ar hp led tr]. cbn in Hon. subst cc.
  vm_compute. reflexivity.
Qed.

Lemma audio_start_while_running_response (env : Env) (st : State) :
  is_audio_recording st = true ->
  udp_command_server env (datagram "audio_record_start") st
  = (Ok (py "0x14BD0005:ERROR:已经在录音中"), st).
Proof.
  intros Hon. destruct st as [cc ci ar hp led tr]. cbn in Hon. subst ar.
  vm_compute. reflexivity.
Qed.

(** pi.py has no such test: a second [continuous_capture] starts a
    second worker. *)
Lemma pi_capture_started_twice (env : Env) (st : State) :
  raises env (Thread_start continuous_capture_func) = None ->
  Pi.handle_udp_command env (datagram "continuous_capture") st
  = (Ok (py "OK"),
     log_call (Thread_start continuous_capture_func)
       (set_continuous_capture true st)).
Proof.
  intros Hok.
  assert (H : Pi.handle_udp_command env (datagram "continuous_capture") st
              = try_except (bind (Pi.start_capture_thread env)
                              (fun _ => ret (py "OK")))
                  is_Exception
                  (fun e => ret (py "ERROR:处理命令时出错 - " ++ exn_str e)) st)
    by (vm_compute; reflexivity).
  rewrite H. unfold try_except, bind, Pi.start_capture_thread, bind, modify, port.
  rewrite Hok. reflexivity.
Qed.

End Starting.

(* --------------------------------------------------------------------- *)
(** *** Datagrams of words *)

Section Wire.
Import PiFinal.

(** The way of a datagram of words to the dispatcher. *)
Lemma text_of_wire (ws : list bytes) :
  text_of (wire ws) = Str.join (py " ") (map text_of ws).
Proof.
  rewrite py_space. unfold text_of.
  induction ws as [|w ws IH]; [reflexivity|].
  destruct ws as [|y r]; [reflexivity|].
  change (wire (w :: y :: r)) with (w ++ x20 :: wire (y :: r)).
  rewrite map_app. cbn [map]. rewrite IH. reflexivity.
Qed.

Lemma ascii_wire (ws : list bytes) :
  Forall (fun w => forallb printable w = true) ws ->
  forallb (fun b => Byte.to_N b <? 0x80) (wire ws) = true.
Proof.
  induction ws as [|w ws IH]; [reflexivity|]. intros H.
  apply Forall_cons in H as [Hw Hws].
  destruct ws as [|y r]; [by apply ascii_of_printable|].
  change (wire (w :: y :: r)) with (w ++ x20 :: wire (y :: r)).
  rewrite forallb_app. cbn [forallb].
  rewrite (ascii_of_printable _ Hw), (IH Hws). reflexivity.
Qed.



(** The same for pi.py: the stripped text reaches its dispatcher. *)
Lemma pi_server_words (env : Env) (st : State) (ws : list bytes) :
  ws <> [] ->
  Forall (fun a => a <> [] /\ forallb printable a = true) ws ->
  Pi.handle_udp_command env (wire ws) st
  = try_except (Pi.dispatch env (Str.join (py " ") (map text_of ws)))
      is_Exception
      (fun e => ret (py "ERROR:处理命令时出错 - " ++ exn_str e)) st.
Proof.
  intros Hne Hws.
  assert (Hwords : Forall word (map text_of ws)).
  { apply Forall_map. eapply Forall_impl; [exact Hws|].
    intros a [H1 H2]. by apply word_of_printable. }
  unfold Pi.handle_udp_command.
  rewrite decode_ascii.
  2:{ apply ascii_wire. eapply Forall_impl; [exact Hws|]. by intros a [_ H]. }
  rewrite text_of_wire.
  destruct ws as [|w ws]; [done|]. cbn [map] in *.
  by rewrite strip_join.
Qed.

End Wire.

Ltac words_are_plain :=
  repeat constructor; first [done | vm_compute; discriminate].



Ltac evaluate :=
  repeat match goal with
         | e : Env |- _ => destruct e
         | s : State |- _ => destruct s
         end;
  cbn [raises float_of_str float_repr path_exists now_stamp strptime_error
       run_result tcp_push GPIO_AVAILABLE ser_connections continuous_capture
       is_audio_recording hdmi_player_process trace led_pin_high] in *;
  subst;
  repeat match goal with
         | H : _ = _ |- _ => progress vm_compute in H
         end;
  vm_compute;
  repeat (first [ match goal with
                  | H : forall c, _ c = None |- _ => rewrite !H
                  end
                | match goal with
                  | H : _ = _ |- _ => rewrite !H
                  end ];
          vm_compute);
  reflexivity.

Ltac to_pi_dispatch :=
  match goal with
  | |- context [Pi.handle_udp_command ?env (wire ?ws) ?st] =>
    let HF := fresh "HF" in
    assert (HF : Forall (fun a => a <> [] /\ forallb printable a = true) ws)
      by words_are_plain;
    rewrite (pi_server_words env st ws ltac:(discriminate) HF); clear HF;
    cbn [map]
  end.



(* --------------------------------------------------------------------- *)
(** *** Responses to well-formed commands (pi_final.py) *)

Section Responses.
Import PiFinal.



Example hdmi_stop_idle :
  udp_command_server bench_env (datagram "hdmi_stop") initial_state
  = (Ok (py "0x22A10002:ERROR:没有正在播放的视频"), initial_state).
Proof. vm_compute. reflexivity. Qed.

(** A command of the table without a branch in the dispatcher. *)
Example download_is_unknown :
  udp_command_server bench_env (datagram "download x.bin") initial_state
  = (Ok (py "0x20010002:ERROR:未知命令"), initial_state).
Proof. vm_compute. reflexivity. Qed.



End Responses.

(* --------------------------------------------------------------------- *)
(** *** The TCP upload session (pi_final.py) *)

Section UploadSession.
Import Upload.


Lemma conn_recv_outbound (n : N) (c c' : Conn) (r : result bytes) :
  conn_recv n c = (r, c') -> outbound c' = outbound c.
Proof.
  unfold conn_recv. destruct (inbound c) as [|[bs|e] rest].
  - by intros [= <- <-].
  - destruct (_ <=? _); by intros [= <- <-].
  - by intros [= <- <-].
Qed.



Lemma guess_file_type_keeps_content (ts filepath : str) (fs : storage)
    (content : bytes) :
  fs !! filepath = Some content ->
  (guess_file_type ts filepath fs).2 !! (guess_file_type ts filepath fs).1
  = Some content.
Proof.
  intros Hfile. unfold guess_file_type. rewrite Hfile.
  match goal with
  | |- context [Str.eqb ?np filepath] =>
    generalize np; intros new_path;
    destruct (Str.eqb new_path filepath) eqn:Hsame
  end; cbn [negb fst snd].
  - apply Str_eqb_eq in Hsame. by rewrite Hsame.
  - apply lookup_insert_eq.
Qed.



End UploadSession.

Section UploadExamples.
Import Upload.


(** The five bytes arrive: acknowledgement, and the file holds them. *)
Example upload_five_bytes :
  let out := handle_tcp_file_transfer (py "T") (py "T") bench_upload ∅ in
  out.1.1 = Some (py "/home/ppt5517/received_files/upload_T.bin")
  /\ outbound out.1.2 = [py "FILE_TRANSFER_SUCCESS"]
  /\ out.2 !! py "/home/ppt5517/received_files/upload_T.bin"
     = Some (datagram "abcde").
Proof. vm_compute. auto. Qed.

(** The peer closes after three of five bytes: error, no file. *)
Example upload_cut_short :
  let conn := {| inbound := [Chunk [x00; x01; x00; x00; x00; x05];
                             Chunk (datagram "abc")];
                 outbound := [] |} in
  let out := handle_tcp_file_transfer (py "T") (py "T") conn ∅ in
  out.1.1 = None
  /\ outbound out.1.2 = [py "ERROR:文件接收不完整 (3/5 字节)"]
  /\ out.2 = ∅.
Proof. vm_compute. auto. Qed.

End UploadExamples.


(* --------------------------------------------------------------------- *)
(** *** The upload session against a scripted peer (pi_final.py) *)

Section UploadScripts.
Import Upload.

(** A read of at least one byte from a connection whose next event
    delivers: a non-empty chunk off the front of that event. *)
Lemma conn_recv_delivers (n : N) (ev : recv_event) (rest : list recv_event)
    (sent : list str) :
  delivers ev = true -> 0 < n ->
  exists (b : byte) (chunk : bytes) (pre' : list recv_event),
    conn_recv n {| inbound := ev :: rest; outbound := sent |}
    = (Ok (b :: chunk), {| inbound := pre' ++ rest; outbound := sent |})
    /\ forallb delivers pre' = true
    /\ stream [ev] = (b :: chunk) ++ stream pre'
    /\ N.of_nat (length (b :: chunk)) <= n.
Proof.
  intros Hev Hn. destruct ev as [[|b bs]|e]; try discriminate.
  unfold conn_recv. cbn [inbound outbound].
  destruct (N.leb_spec (N.of_nat (length (b :: bs))) n) as [Hle|Hgt].
  - exists b, bs, []. cbn [app forallb stream]. rewrite app_nil_r. auto.
  - destruct (N.to_nat n) as [|k] eqn:Hk; [lia|].
    exists b, (take k bs), [Chunk (drop (S k) (b :: bs))].
    cbn [take drop app forallb stream]. rewrite !app_nil_r.
    assert (Hlen : (k < length bs)%nat) by (cbn [length] in Hgt; lia).
    split; [reflexivity|]. split.
    + destruct (drop k bs) eqn:Hd; [|reflexivity].
      apply (f_equal length) in Hd. rewrite length_drop in Hd. cbn in Hd. lia.
    + split; [by rewrite take_drop|].
      cbn [length]. rewrite length_take. lia.
Qed.

Lemma stream_app_delivers (pre tail : list recv_event) :
  forallb delivers pre = true -> stream (pre ++ tail) = stream pre ++ stream tail.
Proof.
  induction pre as [|[bs|e] pre IH]; cbn [forallb delivers app stream]; [done| |].
  - intros [_ H]%andb_prop. by rewrite IH, app_assoc.
  - discriminate.
Qed.

(** The loop against a script: the events of [pre] deliver bytes, the
    first event of [tail], if any, does not. The file receives the bytes
    of [pre], up to the declared size; when [pre] runs short, the loop
    ends on the first event of [tail]: with its exception, or with a
    zero-byte read. *)
Lemma recv_loop_script (file_size : N) (filepath : str) (received : N)
    (conn : Conn) (fs : storage) :
  forall (content0 : bytes) (pre tail : list recv_event),
    received <= file_size ->
    fs !! filepath = Some content0 ->
    inbound conn = pre ++ tail ->
    forallb delivers pre = true ->
    (forall ev tl, tail = ev :: tl -> delivers ev = false) ->
    let wanted := N.to_nat (file_size - received) in
    let out := recv_loop file_size filepath received conn fs in
    out.2 = <[filepath := content0 ++ take wanted (stream pre)]> fs
    /\ outbound out.1.2 = outbound conn
    /\ ((wanted <= length (stream pre))%nat -> out.1.1 = Ok file_size)
    /\ ((length (stream pre) < wanted)%nat ->
        out.1.1 = match tail with
                  | RecvError e :: _ => Raise e
                  | _ => Ok (received + N.of_nat (length (stream pre)))
                  end).
Proof.
  funelim (recv_loop file_size filepath received conn fs);
    intros content0 pre tail Hle Hfile Hin Hpre Htail; cbn zeta; cbn [fst snd].
  - (* the size is reached *)
    pose proof (proj1 (N.ltb_ge _ _) e) as Hge.
    replace (N.to_nat (file_size - received)) with 0%nat by lia.
    rewrite take_0, app_nil_r.
    split; [by rewrite insert_id|]. split; [reflexivity|].
    split; [intros _; f_equal; lia | intros Hshort; lia].
  - (* a zero-byte read *)
    pose proof (proj1 (N.ltb_lt _ _) Hlt) as Hlt'.
    destruct pre as [|ev pre].
    + cbn [stream take length app] in *. rewrite take_nil, app_nil_r.
      split; [by rewrite insert_id|].
      split; [by eapply conn_recv_outbound|].
      split; [intros Hlong; lia|]. intros _.
      rewrite N.add_0_r.
      destruct tail as [|[bs|err] tail]; try done.
      unfold conn_recv in Heq. rewrite Hin in Heq. discriminate Heq.
    + exfalso. cbn [forallb] in Hpre. apply andb_prop in Hpre as [Hev Hpre].
      destruct conn as [inb sent]. cbn [inbound] in Hin. subst inb.
      destruct (conn_recv_delivers (N.min 4096 (file_size - received)) ev
                  (pre ++ tail) sent Hev) as (b & chunk & pre' & Hrecv & _);
        [lia|].
      cbn [app] in Heq. rewrite Hrecv in Heq. discriminate Heq.
  - (* a chunk is written *)
    pose proof (proj1 (N.ltb_lt _ _) Hlt) as Hlt'.
    assert (Hfile' : file_append filepath (b :: chunk) fs !! filepath
                     = Some (content0 ++ b :: chunk)).
    { unfold file_append. rewrite Hfile. apply lookup_insert_eq. }
    destruct pre as [|ev pre].
    + (* [tail] does not deliver *)
      exfalso. cbn [app] in Hin. unfold conn_recv in Heq. rewrite Hin in Heq.
      destruct tail as [|[[|b0 bs]|err] tail]; try discriminate Heq.
      * rewrite take_nil in Heq. destruct (_ <=? _); discriminate Heq.
      * specialize (Htail _ _ eq_refl). discriminate Htail.
    + cbn [forallb] in Hpre. apply andb_prop in Hpre as [Hev Hpre].
      destruct conn as [inb sent]. cbn [inbound outbound] in *. subst inb.
      destruct (conn_recv_delivers (N.min 4096 (file_size - received)) ev
                  (pre ++ tail) sent Hev)
        as (b' & chunk' & pre' & Hrecv & Hpre' & Hstream & Hlen); [lia|].
      cbn [app] in Heq. rewrite Hrecv in Heq. injection Heq as -> -> <-.
      specialize (H (content0 ++ b :: chunk) (pre' ++ pre) tail).
      cbn zeta in H. cbn [inbound outbound] in H.
      destruct H as (Hfs & Hout & Hlong & Hshort);
        [lia | exact Hfile' | by rewrite app_assoc
        | by rewrite forallb_app, Hpre', Hpre | exact Htail |].
      assert (Hs : stream (ev :: pre) = (b :: chunk) ++ stream (pre' ++ pre)).
      { change (ev :: pre) with ([ev] ++ pre).
        rewrite !stream_app_delivers; [|exact Hpre'|by cbn; rewrite Hev].
        by rewrite Hstream, app_assoc. }
      rewrite Hs.
      set (k := length (b :: chunk)) in *.
      assert (Hw : N.to_nat (file_size - received)
                   = (k + N.to_nat (file_size - (received + N.of_nat k)))%nat)
        by lia.
      split.
      { rewrite Hfs, Hw. unfold file_append. rewrite Hfile, insert_insert_eq.
        rewrite take_app_add'; [|reflexivity]. by rewrite <- app_assoc. }
      split; [exact Hout|].
      rewrite length_app. fold k. split.
      * intros Hl. apply Hlong. lia.
      * intros Hsh. rewrite Hshort; [|lia].
        destruct tail as [|[bs|err] tail]; [|  |reflexivity]; f_equal; lia.
  - (* [recv] raises *)
    pose proof (proj1 (N.ltb_lt _ _) Hlt) as Hlt'.
    destruct pre as [|ev pre].
    + cbn [stream take length app] in *. rewrite take_nil, app_nil_r.
      split; [by rewrite insert_id|].
      split; [by eapply conn_recv_outbound|].
      split; [intros Hlong; lia|]. intros _.
      unfold conn_recv in Heq. rewrite Hin in Heq.
      destruct tail as [|[bs|err] tail]; try discriminate Heq.
      * destruct (_ <=? _); discriminate Heq.
      * by injection Heq as -> _.
    + exfalso. cbn [forallb] in Hpre. apply andb_prop in Hpre as [Hev Hpre].
      destruct conn as [inb sent]. cbn [inbound] in Hin. subst inb.
      destruct (conn_recv_delivers (N.min 4096 (file_size - received)) ev
                  (pre ++ tail) sent Hev) as (b & chunk & pre' & Hrecv & _);
        [lia|].
      cbn [app] in Heq. rewrite Hrecv in Heq. discriminate Heq.
Qed.


(** The session once the header is read, in terms of its loop. *)
Lemma handle_tcp_file_transfer_loop (ts ts' : str) (conn conn1 : Conn)
    (fs : storage) (header : bytes) :
  conn_recv 6 conn = (Ok header, conn1) ->
  length header = 6%nat ->
  let size := int_from_bytes (drop 2 header) in
  let filepath := os_path_join FILE_SAVE_PATH (py "upload_" ++ ts ++ py ".bin") in
  handle_tcp_file_transfer ts ts' conn fs
  = match recv_loop size filepath 0 conn1 (<[filepath := []]> fs) with
    | (Raise e, conn2, fs2) =>
      (None, conn_sendall (py "ERROR:" ++ exn_str e) conn2, fs2)
    | (Ok received, conn2, fs2) =>
      if received =? size then
        (Some (guess_file_type ts' filepath fs2).1,
         conn_sendall (py "FILE_TRANSFER_SUCCESS") conn2,
         (guess_file_type ts' filepath fs2).2)
      else
        (None,
         conn_sendall
           (py "ERROR:" ++ (py "文件接收不完整 (" ++ str_of_int (Z.of_N received)
                            ++ py "/" ++ str_of_int (Z.of_N size) ++ py " 字节)"))
           conn2,
         delete filepath fs2)
    end.
Proof.
  intros Hhdr Hlen size filepath.
  unfold handle_tcp_file_transfer. rewrite Hhdr, Hlen.
  cbn [Nat.eqb negb]. fold size. fold filepath.
  destruct (recv_loop size filepath 0 conn1 (<[filepath:=[]]> fs))
    as [[[r|e] conn2] fs2]; [|reflexivity].
  destruct (r =? size); [|reflexivity].
  by destruct (guess_file_type ts' filepath fs2).
Qed.



(** A peer whose bytes run short of the declared size. When the
    connection is then closed, the incomplete-transfer error with the two
    counts is sent and the upload file is removed; when [recv] then
    raises, the text of the exception is sent and the upload file stays
    in the storage with the bytes received so far. Nothing is returned in
    either case. *)
Theorem upload_cut_short_outcomes :
  forall (ts ts' : str) (conn conn1 : Conn) (fs : storage) (header : bytes)
         (pre tail : list recv_event),
    conn_recv 6 conn = (Ok header, conn1) ->
    length header = 6%nat ->
    inbound conn1 = pre ++ tail ->
    forallb delivers pre = true ->
    let size := int_from_bytes (drop 2 header) in
    let got := N.of_nat (length (stream pre)) in
    got < size ->
    let filepath := os_path_join FILE_SAVE_PATH (py "upload_" ++ ts ++ py ".bin") in
    let out := handle_tcp_file_transfer ts ts' conn fs in
    (tail = [] ->
     out.1.1 = None
     /\ outbound out.1.2
        = outbound conn ++ [py "ERROR:" ++ py "文件接收不完整 ("
                            ++ str_of_int (Z.of_N got) ++ py "/"
                            ++ str_of_int (Z.of_N size) ++ py " 字节)"]
     /\ out.2 = delete filepath fs)
    /\ (forall e tl, tail = RecvError e :: tl ->
        out.1.1 = None
        /\ outbound out.1.2 = outbound conn ++ [py "ERROR:" ++ exn_str e]
        /\ out.2 = <[filepath := stream pre]> fs).
Proof.
  intros ts ts' conn conn1 fs header pre tail Hhdr Hlen Hin Hpre size got Hshort
    filepath out.
  assert (Hloop : forall t, tail = t ->
            (forall ev tl, t = ev :: tl -> delivers ev = false) ->
            let loop := recv_loop size filepath 0 conn1 (<[filepath := []]> fs) in
            loop.2 = <[filepath := stream pre]> fs
            /\ outbound loop.1.2 = outbound conn
            /\ loop.1.1 = match t with
                          | RecvError e :: _ => Raise e
                          | _ => Ok got
                          end).
  { intros t -> Ht loop. subst loop.
    destruct (recv_loop_script size filepath 0 conn1 (<[filepath := []]> fs)
                [] pre t)
      as (Hfs & Hout & _ & Hres);
      [lia | apply lookup_insert_eq | exact Hin | exact Hpre | exact Ht |].
    rewrite N.sub_0_r in Hfs, Hres.
    rewrite take_ge in Hfs by (unfold got in Hshort; lia).
    rewrite insert_insert_eq in Hfs. cbn [app] in Hfs.
    split; [exact Hfs|].
    split; [by rewrite Hout, (conn_recv_outbound _ _ _ _ Hhdr)|].
    rewrite Hres by (unfold got in Hshort; lia). by rewrite N.add_0_l. }
  unfold out.
  rewrite (handle_tcp_file_transfer_loop ts ts' conn conn1 fs header Hhdr Hlen).
  cbn zeta. fold size. fold filepath.
  split.
  - intros Htail. destruct (Hloop [] Htail) as (Hfs & Hout & Hres); [discriminate|].
    destruct (recv_loop size filepath 0 conn1 (<[filepath := []]> fs))
      as [[res conn2] fs2].
    cbn [fst snd] in Hfs, Hout, Hres. subst res fs2.
    replace (got =? size) with false by (symmetry; apply N.eqb_neq; lia).
    cbn [fst snd outbound conn_sendall]. split; [reflexivity|].
    split.
    + rewrite Hout. reflexivity.
    + apply delete_insert_eq.
  - intros e tl Htail.
    destruct (Hloop (RecvError e :: tl) Htail) as (Hfs & Hout & Hres).
    { by intros ev tl' [= <- _]. }
    destruct (recv_loop size filepath 0 conn1 (<[filepath := []]> fs))
      as [[res conn2] fs2].
    cbn [fst snd] in Hfs, Hout, Hres. subst res fs2.
    cbn [fst snd outbound conn_sendall]. by rewrite Hout.
Qed.

Lemma upload_cut_short_outcomes_witness :
  (handle_tcp_file_transfer (py "T") (py "T")
     {| inbound := [Chunk [x00; x01; x00; x00; x00; x05]; Chunk (datagram "abc");
                    RecvError (Exn OtherError (py "timed out"))];
        outbound := [] |} ∅).2
  = <[os_path_join FILE_SAVE_PATH (py "upload_T.bin") := datagram "abc"]> ∅.
Proof.
  pose proof (upload_cut_short_outcomes (py "T") (py "T")
     {| inbound := [Chunk [x00; x01; x00; x00; x00; x05]; Chunk (datagram "abc");
                    RecvError (Exn OtherError (py "timed out"))];
        outbound := [] |}
     {| inbound := [Chunk (datagram "abc");
                    RecvError (Exn OtherError (py "timed out"))];
        outbound := [] |}
     ∅ [x00; x01; x00; x00; x00; x05]
     [Chunk (datagram "abc")] [RecvError (Exn OtherError (py "timed out"))]
     eq_refl eq_refl eq_refl eq_refl ltac:(vm_compute; reflexivity)) as H.
  cbv zeta in H. destruct H as [_ H].
  destruct (H _ _ eq_refl) as (_ & _ & Hfs).
  exact Hfs.
Defined.

(** A header that arrives short -- a first segment of fewer than six
    bytes, or a connection closed at once -- ends the session with the
    header error: nothing is stored, nothing is returned, and what
    follows on the connection is not read. *)
Theorem upload_short_header_rejected :
  forall (ts ts' : str) (conn conn1 : Conn) (fs : storage) (header : bytes),
    conn_recv 6 conn = (Ok header, conn1) ->
    (length header < 6)%nat ->
    handle_tcp_file_transfer ts ts' conn fs
    = (None, conn_sendall (py "ERROR:" ++ py "无效的文件头长度") conn1, fs).
Proof.
  intros ts ts' conn conn1 fs header Hhdr Hlen.
  unfold handle_tcp_file_transfer. rewrite Hhdr.
  replace (length header =? 6)%nat with false
    by (symmetry; apply Nat.eqb_neq; lia).
  reflexivity.
Qed.

Lemma upload_short_header_rejected_witness :
  handle_tcp_file_transfer (py "T") (py "T")
    {| inbound := [Chunk [x00; x01; x00; x00]; Chunk [x00; x05];
                   Chunk (datagram "abcde")];
       outbound := [] |} ∅
  = (None,
     conn_sendall (py "ERROR:" ++ py "无效的文件头长度")
       {| inbound := [Chunk [x00; x05]; Chunk (datagram "abcde")];
          outbound := [] |}, ∅).
Proof.
  exact (upload_short_header_rejected (py "T") (py "T")
           {| inbound := [Chunk [x00; x01; x00; x00]; Chunk [x00; x05];
                          Chunk (datagram "abcde")];
              outbound := [] |}
           {| inbound := [Chunk [x00; x05]; Chunk (datagram "abcde")];
              outbound := [] |}
           ∅ [x00; x01; x00; x00] eq_refl ltac:(vm_compute; lia)).
Defined.

(** Sniffing moves at most the one file: its content is under the path
    returned, the old path is gone when the file was renamed, and every
    other path holds what it held (a file already at the new name is
    replaced). *)
Theorem guess_file_type_moves_one_file :
  forall (ts filepath : str) (fs : storage) (content : bytes),
    fs !! filepath = Some content ->
    let new_path := (guess_file_type ts filepath fs).1 in
    let fs' := (guess_file_type ts filepath fs).2 in
    fs' !! new_path = Some content
    /\ (new_path <> filepath -> fs' !! filepath = None)
    /\ forall other : str,
         other <> new_path -> other <> filepath -> fs' !! other = fs !! other.
Proof.
  intros ts filepath fs content Hfile new_path fs'.
  split; [by apply guess_file_type_keeps_content|].
  unfold new_path, fs', guess_file_type. rewrite Hfile.
  match goal with
  | |- context [Str.eqb ?np filepath] =>
    generalize np; intros p; destruct (Str.eqb p filepath) eqn:Hsame
  end; cbn [negb fst snd].
  - apply Str_eqb_eq in Hsame. subst p. split; [done|]. done.
  - split.
    + intros Hne. rewrite lookup_insert_ne by done. apply lookup_delete_eq.
    + intros other H1 H2. rewrite lookup_insert_ne by done.
      by rewrite lookup_delete_ne.
Qed.

Lemma guess_file_type_moves_one_file_witness :
  (guess_file_type (py "T") (py "/up.bin")
     (<[py "/up.bin" := [xff; xd8; xff; xe0]]> ∅)).2 !! py "/up.bin" = None.
Proof.
  refine (proj1 (proj2 (guess_file_type_moves_one_file (py "T") (py "/up.bin")
            (<[py "/up.bin" := [xff; xd8; xff; xe0]]> ∅) [xff; xd8; xff; xe0] _)) _).
  - vm_compute. reflexivity.
  - vm_compute. discriminate.
Defined.

End UploadScripts.

(* --------------------------------------------------------------------- *)
(** *** pi2.py: frames that name no handler *)

Section BinaryFrames.

Lemma pi2_short_frame_witness :
  Pi2.handle_udp_command bench_env [x00; x11; x00] initial_state
  = (Ok (py "ERROR:指令长度不足"), initial_state).
Proof.
  apply (pi2_short_frame bench_env [x00; x11; x00] initial_state).
  vm_compute. lia.
Defined.

(** A frame of at least four bytes whose first two bytes are none of the
    six primary opcodes is answered with the unknown-opcode error, which
    quotes the opcode as four hexadecimal digits; the state is as
    before. *)
Theorem pi2_unknown_primary_quoted :
  forall (env : Env) (data : bytes) (st : State),
    (4 <= length data)%nat ->
    let primary := int_from_bytes (take 2 data) in
    primary <> 0x0A5F -> primary <> 0x14BD -> primary <> 0x0011 ->
    primary <> 0x0022 -> primary <> 0x2E9A -> primary <> 0x42EB ->
    Pi2.handle_udp_command env data st
    = (Ok (py "ERROR:未知指令 0x" ++ hex4 primary), st).
Proof.
  intros env data st Hlen primary H1 H2 H3 H4 H5 H6.
  assert (Hnone : Pi2.COMMANDS !! primary = None).
  { destruct (Pi2.COMMANDS !! primary) as [name|] eqn:E; [|reflexivity].
    exfalso. apply elem_of_list_to_map_2 in E.
    repeat (apply elem_of_cons in E as [E|E]; [by injection E as E _|]).
    by apply elem_of_nil in E. }
  unfold Pi2.handle_udp_command, Pi2.dispatch.
  replace (4 <=? length data)%nat with true by (symmetry; by apply Nat.leb_le).
  fold primary. rewrite Hnone. reflexivity.
Qed.

Lemma pi2_unknown_primary_quoted_witness :
  Pi2.handle_udp_command bench_env [xbe; xef; x00; x01; x41] initial_state
  = (Ok (py "ERROR:未知指令 0x" ++ hex4 0xBEEF), initial_state).
Proof.
  apply (pi2_unknown_primary_quoted bench_env [xbe; xef; x00; x01; x41]
           initial_state); vm_compute; first [lia | discriminate].
Defined.

(** Four sub-opcodes are in the table and have no branch: [play_video],
    [start_recording], [stop_recording] and [send_status] are answered
    with the invalid-command error whatever the payload, and nothing
    happens. *)
Theorem pi2_declared_without_handler :
  forall (env : Env) (payload : bytes) (st : State),
    Pi2.SUB_COMMANDS !! py "display" ≫= (.!! 0x0002) = Some (py "play_video")
    /\ Pi2.SUB_COMMANDS !! py "capture" ≫= (.!! 0x0004) = Some (py "start_recording")
    /\ Pi2.SUB_COMMANDS !! py "capture" ≫= (.!! 0x0005) = Some (py "stop_recording")
    /\ Pi2.SUB_COMMANDS !! py "data_return" ≫= (.!! 0x0002) = Some (py "send_status")
    /\ Pi2.handle_udp_command env ([x0a; x5f; x00; x02] ++ payload) st
       = (Ok (py "ERROR:无效指令"), st)
    /\ Pi2.handle_udp_command env ([x00; x11; x00; x04] ++ payload) st
       = (Ok (py "ERROR:无效指令"), st)
    /\ Pi2.handle_udp_command env ([x00; x11; x00; x05] ++ payload) st
       = (Ok (py "ERROR:无效指令"), st)
    /\ Pi2.handle_udp_command env ([x2e; x9a; x00; x02] ++ payload) st
       = (Ok (py "ERROR:无效指令"), st).
Proof.
  intros env payload st.
  repeat match goal with |- _ /\ _ => split end; vm_compute; reflexivity.
Qed.

End BinaryFrames.

(* --------------------------------------------------------------------- *)
(** *** Datagrams that are UTF-8 (pi.py, pi_final.py) *)

Section Answered.
Import PiFinal.

Lemma lstrip_head (s : list N) (c : N) (r : list N) :
  Str.lstrip s = c :: r -> Str.isspace c = false.
Proof.
  induction s as [|d s IH]; [discriminate|]. cbn [Str.lstrip].
  destruct (Str.isspace d) eqn:Hd; [exact IH|]. by intros [= <- _].
Qed.

Lemma split_from_empty (cur s : list N) :
  Str.split_from cur s = [] -> cur = [] /\ forallb Str.isspace s = true.
Proof.
  revert cur. induction s as [|c s IH]; intros cur; cbn [Str.split_from forallb].
  - by destruct cur.
  - destruct (Str.isspace c).
    + destruct cur; [|discriminate]. intros H. by destruct (IH [] H).
    + intros H. by destruct (IH _ H).
Qed.

(** A stripped text without a word is empty. *)
Lemma strip_without_word (s : list N) :
  Str.split (Str.strip s) = [] -> Str.strip s = [].
Proof.
  intros H. apply split_from_empty in H as [_ H].
  unfold Str.strip, Str.rstrip in *.
  destruct (Str.lstrip (rev (Str.lstrip s))) as [|c r] eqn:E; [reflexivity|].
  apply lstrip_head in E. cbn [rev] in H. rewrite forallb_app in H.
  apply andb_prop in H as [_ H]. cbn [forallb] in H. by rewrite E in H.
Qed.

(** [get_command_code] raises on a text of blanks that has a space, and
    the server never calls it on one: the command is stripped first. *)
Lemma get_command_code_stripped (text : list N) :
  exists code,
    get_command_code (Str.strip text) = Ok code
    /\ (code = py "0x00000000" \/ exists k, COMMAND_MAPPING !! k = Some code).
Proof.
  unfold get_command_code.
  destruct (Str.contains_char 32 (Str.strip text)) eqn:Hsp.
  - destruct (Str.split (Str.strip text)) as [|t ts] eqn:Hsplit.
    + apply strip_without_word in Hsplit. rewrite Hsplit in Hsp. discriminate.
    + match goal with
      | |- context [COMMAND_MAPPING !! ?k] =>
        destruct (COMMAND_MAPPING !! k) as [code|] eqn:E
      end; eexists; (split; [reflexivity|]); [right; eauto | by left].
  - match goal with
    | |- context [COMMAND_MAPPING !! ?k] =>
      destruct (COMMAND_MAPPING !! k) as [code|] eqn:E
    end; eexists; (split; [reflexivity|]); [right; eauto | by left].
Qed.

Example get_command_code_blank :
  get_command_code (py "  ") = Raise (Exn IndexError (py "list index out of range")).
Proof. vm_compute. reflexivity. Qed.

(** Every datagram that is UTF-8 is answered by the two text variants,
    whatever the ports do. In pi_final.py the response is a code of the
    table or [0x00000000], the status SUCCESS or ERROR, and a message,
    joined by colons. *)
Theorem text_servers_answer_utf8 :
  forall (env : Env) (data : bytes) (text : list N) (st : State),
    Utf8.decode data = Some text ->
    (exists response st',
       Pi.handle_udp_command env data st = (Ok response, st'))
    /\ (exists code status message st',
          udp_command_server env data st
          = (Ok (code ++ py ":" ++ status ++ py ":" ++ message), st')
          /\ (status = py "SUCCESS" \/ status = py "ERROR")
          /\ (code = py "0x00000000"
              \/ exists k, COMMAND_MAPPING !! k = Some code)).
Proof.
  intros env data text st Hdec. split.
  - unfold Pi.handle_udp_command. rewrite Hdec.
    apply try_except_all_returns. intros e st1. eexists _, _. reflexivity.
  - unfold udp_command_server. rewrite Hdec.
    destruct (get_command_code_stripped text) as (code & -> & Hcode).
    unfold respond, try_except, bind.
    destruct (dispatch env code (Str.split (Str.strip text)) st)
      as [[[success result]|e] st1].
    + exists code, (if success then py "SUCCESS" else py "ERROR"), result, st1.
      split; [reflexivity|]. split; [by destruct success; auto|exact Hcode].
    + exists code, (py "ERROR"), (exn_str e), st1.
      split; [|by auto]. cbn [is_Exception]. unfold ret.
      replace (py ":ERROR:") with (py ":" ++ py "ERROR" ++ py ":")
        by (vm_compute; reflexivity).
      rewrite <- !app_assoc. reflexivity.
Qed.

Lemma text_servers_answer_utf8_witness :
  exists response st',
    Pi.handle_udp_command bench_env (datagram "capture") initial_state
    = (Ok response, st').
Proof.
  exact (proj1 (text_servers_answer_utf8 bench_env (datagram "capture")
                  (py "capture") initial_state
                  ltac:(vm_compute; reflexivity))).
Defined.

End Answered.

(* --------------------------------------------------------------------- *)
(** *** pi.py: the numbers of [continuous_capture] and [record] *)

Section PiNumbers.

Lemma not_stop (a : bytes) :
  a <> datagram "stop" -> Str.eqb (text_of a) (py "stop") = false.
Proof.
  intros H. apply Str_eqb_neq. intros E. apply H, text_of_inj. rewrite E.
  vm_compute. reflexivity.
Qed.

(** pi.py tests the sign of the interval and tells a number that is not
    positive from a text that is no number; it does not test whether a
    capture is running, so a valid interval starts a worker in any
    state. *)
Theorem pi_interval_checked :
  forall (env : Env) (st : State) (a : bytes),
    (forall c, raises env c = None) ->
    a <> [] -> forallb printable a = true -> a <> datagram "stop" ->
    let run := Pi.handle_udp_command env
                 (wire [datagram "continuous_capture"; a]) st in
    (forall v : float,
        float_of_str env (text_of a) = Some v -> (0 <? v)%float = true ->
        run = (Ok (py "OK"),
               log_call (Thread_start continuous_capture_func)
                 (set_continuous_capture true (set_capture_interval v st))))
    /\ (forall v : float,
          float_of_str env (text_of a) = Some v -> (0 <? v)%float = false ->
          run = (Ok (py "ERROR:间隔时间必须大于0"), st))
    /\ (float_of_str env (text_of a) = None ->
        run = (Ok (py "ERROR:无效的间隔时间"), st)).
Proof.
  intros env st a Hok Ha Hp Hstop run. subst run.
  to_pi_dispatch.
  replace (Pi.dispatch env (Str.join (py " ") [text_of (datagram "continuous_capture");
                                               text_of a]))
    with (Pi.continuous_capture_command env
            (Str.join (py " ") [text_of (datagram "continuous_capture"); text_of a]))
    by (vm_compute; reflexivity).
  unfold Pi.continuous_capture_command.
  rewrite split_join
    by (repeat constructor; first [done | vm_compute; discriminate
                                  | by apply word_of_printable]).
  rewrite (not_stop _ Hstop).
  split; [|split].
  - intros v Hv Hpos. evaluate.
  - intros v Hv Hpos. evaluate.
  - intros Hv. evaluate.
Qed.

Lemma pi_interval_checked_witness :
  Pi.handle_udp_command bench_env
    (wire [datagram "continuous_capture"; datagram "0"]) initial_state
  = (Ok (py "ERROR:间隔时间必须大于0"), initial_state).
Proof.
  refine (proj1 (proj2 (pi_interval_checked bench_env initial_state (datagram "0")
                          (fun c => eq_refl) _ _ _)) 0%float _ _).
  - vm_compute. discriminate.
  - vm_compute. reflexivity.
  - vm_compute. discriminate.
  - vm_compute. reflexivity.
  - vm_compute. reflexivity.
Defined.

(** pi.py refuses a duration that is zero or negative, and records for
    any other number the text parses to; the camera is not touched on a
    refusal. *)
Theorem pi_record_checked :
  forall (env : Env) (st : State) (a : bytes),
    (forall c, raises env c = None) ->
    a <> [] -> forallb printable a = true ->
    let run := Pi.handle_udp_command env (wire [datagram "record"; a]) st in
    let mp4 := FILE_SAVE_PATH ++ py "video_" ++ now_stamp env ++ py ".mp4" in
    (forall v : float,
        float_of_str env (text_of a) = Some v -> (v <=? 0)%float = true ->
        run = (Ok (py "ERROR:时长必须大于0"), st))
    /\ (forall v : float,
          float_of_str env (text_of a) = Some v -> (v <=? 0)%float = false ->
          run = (Ok (py "RECORDING_COMPLETE:" ++ mp4),
                 log_call picam2_stop
                   (log_call (picam2_start_and_record_video mp4 v)
                      (log_call (time_sleep 1)
                         (log_call picam2_start
                            (log_call picam2_configure_video st))))))
    /\ (float_of_str env (text_of a) = None ->
        run = (Ok (py "ERROR:无效时长"), st)).
Proof.
  intros env st a Hok Ha Hp run mp4. subst run mp4.
  to_pi_dispatch.
  replace (Pi.dispatch env (Str.join (py " ") [text_of (datagram "record");
                                               text_of a]))
    with (Pi.record_command env
            (Str.join (py " ") [text_of (datagram "record"); text_of a]))
    by (vm_compute; reflexivity).
  unfold Pi.record_command.
  rewrite split_join
    by (repeat constructor; first [done | vm_compute; discriminate
                                  | by apply word_of_printable]).
  split; [|split].
  - intros v Hv Hpos. evaluate.
  - intros v Hv Hpos. evaluate.
  - intros Hv. evaluate.
Qed.

Lemma pi_record_checked_witness :
  Pi.handle_udp_command bench_env (wire [datagram "record"; datagram "0"])
    initial_state
  = (Ok (py "ERROR:时长必须大于0"), initial_state).
Proof.
  refine (proj1 (pi_record_checked bench_env initial_state (datagram "0")
                   (fun c => eq_refl) _ _) 0%float _ _).
  - vm_compute. discriminate.
  - vm_compute. reflexivity.
  - vm_compute. reflexivity.
  - vm_compute. reflexivity.
Defined.

(** The two tests differ on a number that compares with nothing: it is
    refused as an interval and accepted as a duration. *)
Example nan_passes_the_duration_test :
  (0 <? nan)%float = false /\ (nan <=? 0)%float = false.
Proof. split; vm_compute; reflexivity. Qed.

Lemma startswith_app (p s : list N) : Str.startswith (p ++ s) p = true.
Proof.
  induction p as [|c p IH]; [by destruct s|].
  cbn [app Str.startswith]. by rewrite N.eqb_refl, IH.
Qed.

(** pi.py matches [continuous_capture] by prefix: any single word that
    starts with it, such as [continuous_capture_stop], starts a
    capture. *)
Theorem pi_capture_prefix_starts :
  forall (env : Env) (st : State) (suffix : bytes),
    raises env (Thread_start continuous_capture_func) = None ->
    forallb printable suffix = true ->
    Pi.handle_udp_command env (datagram "continuous_capture" ++ suffix) st
    = (Ok (py "OK"),
       log_call (Thread_start continuous_capture_func)
         (set_continuous_capture true st)).
Proof.
  intros env st suffix Hok Hp.
  assert (Hpr : forallb printable (datagram "continuous_capture" ++ suffix) = true).
  { rewrite forallb_app, Hp. vm_compute. reflexivity. }
  assert (Hw : word (text_of (datagram "continuous_capture" ++ suffix))).
  { apply word_of_printable; [discriminate|exact Hpr]. }
  assert (Htext : text_of (datagram "continuous_capture" ++ suffix)
                  = py "continuous_capture" ++ text_of suffix).
  { unfold text_of. rewrite map_app. f_equal; vm_compute; reflexivity. }
  unfold Pi.handle_udp_command.
  rewrite decode_ascii by (by apply ascii_of_printable).
  rewrite strip_word by exact Hw.
  unfold Pi.dispatch.
  replace (Str.eqb (text_of (datagram "continuous_capture" ++ suffix)) (py "capture"))
    with false by (vm_compute; reflexivity).
  rewrite Htext at 1. rewrite startswith_app.
  unfold Pi.continuous_capture_command.
  replace (Str.split (text_of (datagram "continuous_capture" ++ suffix)))
    with [text_of (datagram "continuous_capture" ++ suffix)].
  2:{ symmetry. apply (split_join [_]).
      constructor; [exact Hw | constructor]. }
  unfold try_except, bind, Pi.start_capture_thread, bind, modify, port.
  rewrite Hok. reflexivity.
Qed.

Lemma pi_capture_prefix_starts_witness :
  Pi.handle_udp_command bench_env (datagram "continuous_capture_stop")
    initial_state
  = (Ok (py "OK"),
     log_call (Thread_start continuous_capture_func)
       (set_continuous_capture true initial_state)).
Proof.
  exact (pi_capture_prefix_starts bench_env initial_state (datagram "_stop")
           eq_refl eq_refl).
Defined.

End PiNumbers.

(* --------------------------------------------------------------------- *)
(** *** Stopping a recording whose stream fails (pi_final.py) *)

Section StoppingMore.

Lemma stop_audio_recording_clears_flag_witness :
  is_audio_recording
    (PiFinal.stop_audio_recording bench_env
       (set_is_audio_recording true initial_state)).2 = false.
Proof.
  exact (stop_audio_recording_clears_flag bench_env
           (set_is_audio_recording true initial_state) eq_refl).
Defined.

End StoppingMore.
